(** * State variables of the Linux trace automaton (linuxautomaton/sv.py)

    A shallow embedding of the state-variable classes of [sv.py]: file
    descriptors, interrupt records and the I/O request hierarchy, together
    with the properties stated about them.

    Conventions of the embedding.
    - Python integers are unbounded: they are modelled by [Z].
    - An attribute that holds whatever the trace event carried (a file
      name, a descriptor number, a device) has type [value]; an attribute
      that the code only ever binds to [None] or to the result of integer
      arithmetic has type [option Z].
    - A trace event is a timestamp, a name and a dictionary of payload
      fields.  [event[k]] on a missing key raises [KeyError]; integer
      arithmetic and ordering on a payload that is not an integer raises
      [TypeError].  Both are results of the [result] type below.
    - [sv.py] imports the module [common] of the same package for the
      function [get_syscall_name] and the constant [O_CLOEXEC]; they are
      parameters of the development (class [Common]).
    - Class inheritance is modelled by nesting: the record of a subclass
      holds the record of its superclass, and [super().m(...)] is a call
      of the superclass function on that part. *)

From stdpp Require Import base option list strings gmap fin_maps pretty.
From Stdlib Require Import ZArith Lia.

Local Open Scope string_scope.
Local Open Scope Z_scope.

(** ** Python values and exceptions *)

#[local] Set Warnings "-register-all".

Inductive value : Type :=
  | VNone
  | VBool (b : bool)
  | VInt (n : Z)
  | VStr (s : string)
  | VList (l : list value).

Inductive PyError : Type :=
  | KeyError (key : string)
  | TypeError
  | AttributeError (attr : string).

Inductive result (A : Type) : Type :=
  | Ok (a : A)
  | Err (e : PyError).

Arguments Ok {A} a.
Arguments Err {A} e.

Definition bind {A B : Type} (r : result A) (k : A -> result B) : result B :=
  match r with
  | Ok a => k a
  | Err e => Err e
  end.

Notation "x <- r ;; k" := (bind r (fun x => k))
  (at level 100, r at next level, right associativity).

(** Use of a value where the code needs an integer ([<], [-], [&], [%]). *)
Definition as_int (v : value) : result Z :=
  match v with
  | VInt n => Ok n
  | _ => Err TypeError
  end.

(** ** Trace events *)

Record Event : Type := {
  timestamp : Z;
  name : string;
  fields : gmap string value
}.

(** [event[k]] *)
Definition getitem (event : Event) (k : string) : result value :=
  match fields event !! k with
  | Some v => Ok v
  | None => Err (KeyError k)
  end.

(** [k in event] *)
Definition contains (event : Event) (k : string) : bool :=
  bool_decide (is_Some (fields event !! k)).

(** [event[k]] used as an integer. *)
Definition getint (event : Event) (k : string) : result Z :=
  v <- getitem event k ;; as_int v.

(** The first of the keys, in the order given, that the event does not
    carry; [None] when it carries them all. *)
Fixpoint first_missing (event : Event) (keys : list string) : option string :=
  match keys with
  | [] => None
  | k :: keys' =>
      if contains event k then first_missing event keys' else Some k
  end.

(** A constructor that only looks fields up: it raises [KeyError] for the
    first of its keys that the event lacks, and returns when the event
    lacks none. *)
Definition requires_fields {A : Type} (f : Event -> result A)
    (keys : list string) : Prop :=
  forall event : Event,
    match first_missing event keys with
    | Some k => f event = Err (KeyError k)
    | None => exists a, f event = Ok a
    end.


(** What [sv.py] uses of [linuxautomaton.common]. *)
Class Common : Type := {
  get_syscall_name : Event -> string;
  O_CLOEXEC : Z
}.

(** [socket.AF_UNSPEC] of the Python standard library on Linux. *)
Definition AF_UNSPEC : Z := 0.

(** [socket.AF_UNIX], [socket.AF_INET] and [socket.AF_INET6] of the Python
    standard library on Linux. *)
Definition AF_UNIX : Z := 1.
Definition AF_INET : Z := 2.
Definition AF_INET6 : Z := 10.

(** [v == n] for an integer constant [n]: a bool compares as the integer 0
    or 1, every other non-integer value is unequal to an integer. *)
Definition eq_int (v : value) (n : Z) : bool :=
  match v with
  | VInt m => m =? n
  | VBool b => (if b then 1 else 0) =? n
  | _ => false
  end.

(** The conversion [%d] of the string formatting operator: the decimal
    digits of an integer (a bool counts as 0 or 1), with a minus sign for
    a negative one; [TypeError] for a value that is not a number. *)
Definition format_d (v : value) : result string :=
  match v with
  | VInt n => Ok (pretty n)
  | VBool b => Ok (if b then "1" else "0")
  | _ => Err TypeError
  end.

(** ** FDType *)

Module FDType.
Definition unknown : Z := 0.
Definition disk : Z := 1.
Definition net : Z := 2.
(** not 100% sure they are network FDs *)
Definition maybe_net : Z := 3.
End FDType.

(** ** FD *)

Module FD.

(** The identity attributes are bound to whatever the caller assigns and
    are values; the counters are integers.  [iorequests] is the list of
    request objects appended by the analyses that consume the descriptor;
    this module only ever binds it to the empty list, and its elements are
    kept as values. *)
Record t : Type := mk {
  filename : value;
  fd : value;
  family : value;
  fdtype : value;
  parent : value;
  cloexec : value;
  net_read : Z;
  net_write : Z;
  disk_read : Z;
  disk_write : Z;
  unk_read : Z;
  unk_write : Z;
  read : Z;
  write : Z;
  iorequests : list value
}.

(** [init_counts(self)]: every counter is rebound to 0 and the request
    history to a new empty list; the other attributes are kept. *)
Definition init_counts (self : t) : t :=
  {| filename := filename self;
     fd := fd self;
     family := family self;
     fdtype := fdtype self;
     parent := parent self;
     cloexec := cloexec self;
     net_read := 0;
     net_write := 0;
     disk_read := 0;
     disk_write := 0;
     unk_read := 0;
     unk_write := 0;
     read := 0;
     write := 0;
     iorequests := [] |}.

(** [FD.__init__(self)].  The counters do not exist before the call of
    [init_counts]; the record needs some content for them, which
    [init_counts] overwrites. *)
Definition init : t :=
  init_counts
    {| filename := VStr "";
       fd := VNone;
       family := VInt AF_UNSPEC;
       fdtype := VInt FDType.unknown;
       parent := VNone;
       cloexec := VBool false;
       net_read := 0; net_write := 0; disk_read := 0; disk_write := 0;
       unk_read := 0; unk_write := 0; read := 0; write := 0;
       iorequests := [] |}.

(** [new_from_fd(cls, fd)]: a new instance, then six attribute copies. *)
Definition new_from_fd (fd0 : t) : t :=
  let new_fd := init in
  {| filename := filename fd0;
     fd := fd fd0;
     family := family fd0;
     fdtype := fdtype fd0;
     parent := parent fd0;
     cloexec := cloexec fd0;
     net_read := net_read new_fd;
     net_write := net_write new_fd;
     disk_read := disk_read new_fd;
     disk_write := disk_write new_fd;
     unk_read := unk_read new_fd;
     unk_write := unk_write new_fd;
     read := read new_fd;
     write := write new_fd;
     iorequests := iorequests new_fd |}.

(** The instance dictionary of an FD: the attribute names bound by
    [__init__] and [init_counts], with their current values. *)
Definition vars (self : t) : list (string * value) :=
  [ ("filename", filename self);
    ("fd", fd self);
    ("family", family self);
    ("fdtype", fdtype self);
    ("parent", parent self);
    ("cloexec", cloexec self);
    ("net_read", VInt (net_read self));
    ("net_write", VInt (net_write self));
    ("disk_read", VInt (disk_read self));
    ("disk_write", VInt (disk_write self));
    ("unk_read", VInt (unk_read self));
    ("unk_write", VInt (unk_write self));
    ("read", VInt (read self));
    ("write", VInt (write self));
    ("iorequests", VList (iorequests self)) ].

Fixpoint assoc (a : string) (d : list (string * value)) : option value :=
  match d with
  | [] => None
  | (k, v) :: d' => if String.eqb a k then Some v else assoc a d'
  end.

(** [self.a] for a data attribute [a]: a name that is not in the instance
    dictionary raises [AttributeError] (the class FD adds methods only,
    [new_from_fd] and [init_counts]). *)
Definition getattr (self : t) (a : string) : result value :=
  match assoc a (vars self) with
  | Some v => Ok v
  | None => Err (AttributeError a)
  end.

(** Objects have an identity: the live FD instances are a store from
    references to states, and a constructor call binds a reference that
    was not in use. *)
Definition alloc (s : gmap positive t) (f : t) : positive * gmap positive t :=
  let r := fresh (dom s) in (r, <[r := f]> s).

(** [FD.new_from_fd(src)] for the instance referenced by [src]; [None]
    when [src] references no live instance. *)
Definition new_from_fd_at (s : gmap positive t) (src : positive)
    : option (positive * gmap positive t) :=
  match s !! src with
  | Some f => Some (alloc s (new_from_fd f))
  | None => None
  end.

End FD.

(** ** IRQ, HardIRQ, SoftIRQ *)

Module IRQ.

Record t : Type := mk {
  id : value;
  cpu_id : value;
  begin_ts : option Z;
  end_ts : option Z
}.

(** [IRQ.__init__(self, id, cpu_id, begin_ts=None)] *)
Definition init (id cpu_id : value) (begin_ts : option Z) : t :=
  {| id := id; cpu_id := cpu_id; begin_ts := begin_ts; end_ts := None |}.

Definition set_begin_ts (ts : option Z) (self : t) : t :=
  {| id := id self; cpu_id := cpu_id self; begin_ts := ts;
     end_ts := end_ts self |}.

End IRQ.

Module HardIRQ.

Record t : Type := mk {
  irq : IRQ.t;
  ret : value
}.

(** [HardIRQ.__init__(self, id, cpu_id, begin_ts)] *)
Definition init (id cpu_id : value) (begin_ts : option Z) : t :=
  {| irq := IRQ.init id cpu_id begin_ts; ret := VNone |}.

(** [new_from_irq_handler_entry(cls, event)] *)
Definition new_from_irq_handler_entry (event : Event) : result t :=
  id <- getitem event "irq" ;;
  cpu_id <- getitem event "cpu_id" ;;
  let begin_ts := timestamp event in
  Ok (init id cpu_id (Some begin_ts)).

End HardIRQ.

Module SoftIRQ.

Record t : Type := mk {
  irq : IRQ.t;
  raise_ts : option Z
}.

(** [SoftIRQ.__init__(self, id, cpu_id, raise_ts=None, begin_ts=None)] *)
Definition init (id cpu_id : value) (raise_ts begin_ts : option Z) : t :=
  {| irq := IRQ.init id cpu_id begin_ts; raise_ts := raise_ts |}.

(** [new_from_softirq_raise(cls, event)]: [cls(id, cpu_id, raise_ts)],
    the third positional parameter being [raise_ts]. *)
Definition new_from_softirq_raise (event : Event) : result t :=
  id <- getitem event "vec" ;;
  cpu_id <- getitem event "cpu_id" ;;
  let raise_ts := timestamp event in
  Ok (init id cpu_id (Some raise_ts) None).

(** [new_from_softirq_entry(cls, event)]: [cls(id, cpu_id,
    begin_ts=begin_ts)]. *)
Definition new_from_softirq_entry (event : Event) : result t :=
  id <- getitem event "vec" ;;
  cpu_id <- getitem event "cpu_id" ;;
  let begin_ts := timestamp event in
  Ok (init id cpu_id None (Some begin_ts)).

Definition id (self : t) : value := IRQ.id (irq self).
Definition cpu_id (self : t) : value := IRQ.cpu_id (irq self).
Definition begin_ts (self : t) : option Z := IRQ.begin_ts (irq self).
Definition end_ts (self : t) : option Z := IRQ.end_ts (irq self).

(** The assignment [self.begin_ts = ts]. *)
Definition set_begin_ts (ts : Z) (self : t) : t :=
  {| irq := IRQ.set_begin_ts (Some ts) (irq self);
     raise_ts := raise_ts self |}.

End SoftIRQ.

(** ** CPU *)

Module CPU.

(** softirqs use a dict because multiple ones can be raised before
    handling.  They are indexed by vec, and each entry is a list,
    ordered chronologically. *)
Record t : Type := mk {
  cpu_id : value;
  current_tid : value;
  current_hard_irq : option HardIRQ.t;
  current_softirqs : gmap Z (list SoftIRQ.t)
}.

(** [CPU.__init__(self, cpu_id)] *)
Definition init (cpu_id : value) : t :=
  {| cpu_id := cpu_id;
     current_tid := VNone;
     current_hard_irq := None;
     current_softirqs := ∅ |}.

Definition set_current_softirqs (m : gmap Z (list SoftIRQ.t)) (self : t) : t :=
  {| cpu_id := cpu_id self;
     current_tid := current_tid self;
     current_hard_irq := current_hard_irq self;
     current_softirqs := m |}.

End CPU.

(** ** IORequest *)

Module IORequest.

(** I/O operations *)
Definition OP_OPEN : Z := 1.
Definition OP_READ : Z := 2.
Definition OP_WRITE : Z := 3.
Definition OP_CLOSE : Z := 4.
Definition OP_SYNC : Z := 5.

Record t : Type := mk {
  begin_ts : Z;
  end_ts : option Z;
  duration : option Z;
  size : option Z;
  operation : Z;
  tid : value;
  errno : option Z
}.

(** [IORequest.__init__(self, begin_ts, size, tid, operation)] *)
Definition init (begin_ts : Z) (size : option Z) (tid : value)
    (operation : Z) : t :=
  {| begin_ts := begin_ts;
     end_ts := None;
     duration := None;
     size := size;
     operation := operation;
     tid := tid;
     errno := None |}.

Definition set_end (e : Z) (r : t) : t :=
  {| begin_ts := begin_ts r; end_ts := Some e; duration := duration r;
     size := size r; operation := operation r; tid := tid r;
     errno := errno r |}.

Definition set_duration (d : Z) (r : t) : t :=
  {| begin_ts := begin_ts r; end_ts := end_ts r; duration := Some d;
     size := size r; operation := operation r; tid := tid r;
     errno := errno r |}.

Definition set_size (s : Z) (r : t) : t :=
  {| begin_ts := begin_ts r; end_ts := end_ts r; duration := duration r;
     size := Some s; operation := operation r; tid := tid r;
     errno := errno r |}.

Definition set_errno (e : Z) (r : t) : t :=
  {| begin_ts := begin_ts r; end_ts := end_ts r; duration := duration r;
     size := size r; operation := operation r; tid := tid r;
     errno := Some e |}.

(** A request is finalized when its end timestamp and duration are
    bound, the end not before the begin and the duration their exact
    difference. *)
Definition finalized (r : t) : Prop :=
  exists e : Z,
    end_ts r = Some e /\ begin_ts r <= e /\
    duration r = Some (e - begin_ts r).

End IORequest.

(** ** SyscallIORequest *)

Module SyscallIORequest.

Record t : Type := mk {
  base : IORequest.t;
  fd : value;
  syscall_name : string;
  returned_size : option Z;
  pages_allocated : Z;
  pages_freed : Z;
  pages_written : Z;
  woke_kswapd : bool
}.

(** [SyscallIORequest.__init__(self, begin_ts, size, tid, operation,
    syscall_name)].  The call of the superclass constructor is
    [super().__init__(begin_ts, None, tid, operation)]: the parameter
    [size] is not used. *)
Definition init (begin_ts : Z) (size : value) (tid : value)
    (operation : Z) (syscall_name : string) : t :=
  {| base := IORequest.init begin_ts None tid operation;
     fd := VNone;
     syscall_name := syscall_name;
     returned_size := None;
     pages_allocated := 0;
     pages_freed := 0;
     pages_written := 0;
     woke_kswapd := false |}.

Definition set_base (b : IORequest.t) (self : t) : t :=
  {| base := b; fd := fd self; syscall_name := syscall_name self;
     returned_size := returned_size self;
     pages_allocated := pages_allocated self;
     pages_freed := pages_freed self;
     pages_written := pages_written self;
     woke_kswapd := woke_kswapd self |}.

Definition set_fd (v : value) (self : t) : t :=
  {| base := base self; fd := v; syscall_name := syscall_name self;
     returned_size := returned_size self;
     pages_allocated := pages_allocated self;
     pages_freed := pages_freed self;
     pages_written := pages_written self;
     woke_kswapd := woke_kswapd self |}.

Definition set_returned_size (n : Z) (self : t) : t :=
  {| base := base self; fd := fd self; syscall_name := syscall_name self;
     returned_size := Some n;
     pages_allocated := pages_allocated self;
     pages_freed := pages_freed self;
     pages_written := pages_written self;
     woke_kswapd := woke_kswapd self |}.

(** [update_from_exit(self, event)] *)
Definition update_from_exit (self : t) (event : Event) : result t :=
  let end_ts := timestamp event in
  let b1 := IORequest.set_end end_ts (base self) in
  let b2 := IORequest.set_duration (end_ts - IORequest.begin_ts b1) b1 in
  ret <- getint event "ret" ;;
  if ret <? 0
  then Ok (set_base (IORequest.set_errno (- ret) b2) self)
  else Ok (set_base b2 self).

Definition size (self : t) : option Z := IORequest.size (base self).
Definition errno (self : t) : option Z := IORequest.errno (base self).

(** The assignment [self.size = n]. *)
Definition set_size (n : Z) (self : t) : t :=
  set_base (IORequest.set_size n (base self)) self.

End SyscallIORequest.

(** ** OpenIORequest *)

Module OpenIORequest.

Record t : Type := mk {
  sys : SyscallIORequest.t;
  filename : value;
  fd_type : value;
  family : value;
  cloexec : bool
}.

(** [OpenIORequest.__init__(self, begin_ts, tid, syscall_name, filename,
    fd_type)] *)
Definition init (begin_ts : Z) (tid : value) (syscall_name : string)
    (filename fd_type : value) : t :=
  let s := SyscallIORequest.init begin_ts VNone tid IORequest.OP_OPEN
             syscall_name in
  {| sys := SyscallIORequest.set_fd VNone s;
     filename := filename;
     fd_type := fd_type;
     family := VNone;
     cloexec := false |}.

Definition set_sys (s : SyscallIORequest.t) (self : t) : t :=
  {| sys := s; filename := filename self; fd_type := fd_type self;
     family := family self; cloexec := cloexec self |}.

Definition set_cloexec (b : bool) (self : t) : t :=
  {| sys := sys self; filename := filename self; fd_type := fd_type self;
     family := family self; cloexec := b |}.

Definition set_family (v : value) (self : t) : t :=
  {| sys := sys self; filename := filename self; fd_type := fd_type self;
     family := v; cloexec := cloexec self |}.

Definition set_filename (v : value) (self : t) : t :=
  {| sys := sys self; filename := v; fd_type := fd_type self;
     family := family self; cloexec := cloexec self |}.

(** [update_from_exit(self, event)] *)
Definition update_from_exit (self : t) (event : Event) : result t :=
  s1 <- SyscallIORequest.update_from_exit (sys self) event ;;
  ret <- getint event "ret" ;;
  if 0 <=? ret
  then Ok (set_sys (SyscallIORequest.set_fd (VInt ret) s1) self)
  else Ok (set_sys s1 self).

Section with_common.
Context {common : Common}.

(** [new_from_disk_open(cls, event, tid)].  In Python [&] binds
    tighter than [==]: the flag test is
    [(event['flags'] & O_CLOEXEC) == O_CLOEXEC]. *)
Definition new_from_disk_open (event : Event) (tid : value) : result t :=
  let begin_ts := timestamp event in
  let name := get_syscall_name event in
  filename <- getitem event "filename" ;;
  let req := init begin_ts tid name filename (VInt FDType.disk) in
  flags <- getint event "flags" ;;
  Ok (set_cloexec (Z.land flags O_CLOEXEC =? O_CLOEXEC) req).

(** [new_from_old_fd(cls, event, tid, old_fd)], for [old_fd] either
    [None] or an instance of the class FD of this module. *)
Definition new_from_old_fd (event : Event) (tid : value)
    (old_fd : option FD.t) : result t :=
  let begin_ts := timestamp event in
  let name := get_syscall_name event in
  match old_fd with
  | None =>
      let filename := VStr "unknown" in
      let fd_type := VInt FDType.unknown in
      Ok (init begin_ts tid name filename fd_type)
  | Some old =>
      filename <- FD.getattr old "filename" ;;
      fd_type <- FD.getattr old "fd_type" ;;
      Ok (init begin_ts tid name filename fd_type)
  end.

End with_common.

(** [new_from_socket(cls, event, tid)] *)
Definition new_from_socket (event : Event) (tid : value) : result t :=
  let begin_ts := timestamp event in
  let req := init begin_ts tid "socket" (VStr "socket") (VInt FDType.net) in
  if contains event "family"
  then family <- getitem event "family" ;; Ok (set_family family req)
  else Ok req.

Section with_addr.
Context {common : Common}.

(** [common.get_v4_addr_str], the other function of the module [common]
    that [sv.py] calls: it renders an IPv4 address, and may raise. *)
Variable get_v4_addr_str : value -> result string.

(** [new_from_accept(cls, event, tid)]; handles both accept and accept4.
    The operands of [%] are evaluated left to right, the address first,
    and ['%s'] of a string is the string itself. *)
Definition new_from_accept (event : Event) (tid : value) : result t :=
  let begin_ts := timestamp event in
  let name := get_syscall_name event in
  let req := init begin_ts tid name (VStr "socket") (VInt FDType.net) in
  if contains event "family"
  then
    family <- getitem event "family" ;;
    let req := set_family family req in
    if eq_int (OpenIORequest.family req) AF_INET
    then
      v4addr <- getitem event "v4addr" ;;
      addr <- get_v4_addr_str v4addr ;;
      sport <- getitem event "sport" ;;
      port <- format_d sport ;;
      Ok (set_filename (VStr (addr +:+ ":" +:+ port)) req)
    else Ok req
  else Ok req.

End with_addr.

End OpenIORequest.

(** ** CloseIORequest *)

Module CloseIORequest.

(** A close request adds no attribute; [update_from_exit] is inherited. *)
Record t : Type := mk { sys : SyscallIORequest.t }.

(** [CloseIORequest.__init__(self, begin_ts, tid, fd)] *)
Definition init (begin_ts : Z) (tid : value) (fd : value) : t :=
  let s := SyscallIORequest.init begin_ts VNone tid IORequest.OP_CLOSE
             "close" in
  {| sys := SyscallIORequest.set_fd fd s |}.

Definition update_from_exit (self : t) (event : Event) : result t :=
  s1 <- SyscallIORequest.update_from_exit (sys self) event ;;
  Ok {| sys := s1 |}.

End CloseIORequest.

(** ** SyscallConsts *)

Module SyscallConsts.

(** list of syscall that read on a FD *)
Definition READ_SYSCALLS : list string :=
  ["read"; "recvmsg"; "recvfrom"; "splice"; "readv"; "sendfile64"].

(** list of syscall that write on a FD *)
Definition WRITE_SYSCALLS : list string :=
  ["write"; "sendmsg"; "sendto"; "writev"].

Definition SYNC_SYSCALLS : list string :=
  ["sync"; "sync_file_range"; "fsync"; "fdatasync"].

Definition INET_FAMILIES : list Z := [AF_INET; AF_INET6].
Definition DISK_FAMILIES : list Z := [AF_UNIX].

(** list of syscalls that open a FD on disk *)
Definition DISK_OPEN_SYSCALLS : list string := ["open"; "openat"].

(** list of syscalls that open a FD on the network *)
Definition NET_OPEN_SYSCALLS : list string := ["accept"; "accept4"; "socket"].

(** list of syscalls that can duplicate a FD *)
Definition DUP_OPEN_SYSCALLS : list string := ["fcntl"; "dup"; "dup2"; "dup3"].

(** merge the 3 open lists *)
Definition OPEN_SYSCALLS : list string :=
  (DISK_OPEN_SYSCALLS ++ NET_OPEN_SYSCALLS ++ DUP_OPEN_SYSCALLS)%list.

(** list of syscalls that close a FD *)
Definition CLOSE_SYSCALLS : list string := ["close"].

(** All I/O related syscalls *)
Definition IO_SYSCALLS : list string :=
  (OPEN_SYSCALLS ++ CLOSE_SYSCALLS ++ READ_SYSCALLS ++ WRITE_SYSCALLS
     ++ SYNC_SYSCALLS)%list.

End SyscallConsts.

(** The table of syscall names that belongs to an operation code. *)
Definition operation_table (operation : Z) : list string :=
  if operation =? IORequest.OP_OPEN then SyscallConsts.OPEN_SYSCALLS
  else if operation =? IORequest.OP_READ then SyscallConsts.READ_SYSCALLS
  else if operation =? IORequest.OP_WRITE then SyscallConsts.WRITE_SYSCALLS
  else if operation =? IORequest.OP_CLOSE then SyscallConsts.CLOSE_SYSCALLS
  else if operation =? IORequest.OP_SYNC then SyscallConsts.SYNC_SYSCALLS
  else [].

(** The syscall name of a request is in the table of its operation. *)
Definition name_matches_operation (s : SyscallIORequest.t) : Prop :=
  SyscallIORequest.syscall_name s
    ∈ operation_table (IORequest.operation (SyscallIORequest.base s)).

(** ** ReadWriteIORequest *)

Module ReadWriteIORequest.

Record t : Type := mk {
  sys : SyscallIORequest.t;
  fd_in : value;
  fd_out : value
}.

(** [ReadWriteIORequest.__init__(self, begin_ts, size, tid, operation,
    syscall_name)] *)
Definition init (begin_ts : Z) (size : value) (tid : value)
    (operation : Z) (syscall_name : string) : t :=
  {| sys := SyscallIORequest.init begin_ts size tid operation syscall_name;
     fd_in := VNone;
     fd_out := VNone |}.

Definition set_sys (s : SyscallIORequest.t) (self : t) : t :=
  {| sys := s; fd_in := fd_in self; fd_out := fd_out self |}.

(** [update_from_exit(self, event)] *)
Definition update_from_exit (self : t) (event : Event) : result t :=
  s1 <- SyscallIORequest.update_from_exit (sys self) event ;;
  ret <- getint event "ret" ;;
  if 0 <=? ret
  then
    let s2 := SyscallIORequest.set_returned_size ret s1 in
    match SyscallIORequest.size s2 with
    | None => Ok (set_sys (SyscallIORequest.set_size ret s2) self)
    | Some _ => Ok (set_sys s2 self)
    end
  else Ok (set_sys s1 self).

(** [new_from_splice(cls, event, tid)] *)
Definition new_from_splice (event : Event) (tid : value) : result t :=
  let begin_ts := timestamp event in
  size <- getitem event "len" ;;
  let req := init begin_ts size tid IORequest.OP_READ "splice" in
  fd_in <- getitem event "fd_in" ;;
  fd_out <- getitem event "fd_out" ;;
  Ok {| sys := sys req; fd_in := fd_in; fd_out := fd_out |}.

(** [new_from_sendfile64(cls, event, tid)] *)
Definition new_from_sendfile64 (event : Event) (tid : value) : result t :=
  let begin_ts := timestamp event in
  size <- getitem event "count" ;;
  let req := init begin_ts size tid IORequest.OP_READ "sendfile64" in
  fd_in <- getitem event "in_fd" ;;
  fd_out <- getitem event "out_fd" ;;
  Ok {| sys := sys req; fd_in := fd_in; fd_out := fd_out |}.

Section with_common.
Context {common : Common}.

(** [new_from_fd_event(cls, event, tid, size_key)] *)
Definition new_from_fd_event (event : Event) (tid : value)
    (size_key : option string) : result t :=
  let begin_ts := timestamp event in
  size <- match size_key with
          | Some k => getitem event k
          | None => Ok VNone
          end ;;
  let syscall_name := get_syscall_name event in
  let operation :=
    if bool_decide (syscall_name ∈ SyscallConsts.READ_SYSCALLS)
    then IORequest.OP_READ else IORequest.OP_WRITE in
  let req := init begin_ts size tid operation syscall_name in
  fd <- getitem event "fd" ;;
  Ok (set_sys (SyscallIORequest.set_fd fd (sys req)) req).

End with_common.

Definition size (self : t) : option Z := SyscallIORequest.size (sys self).

End ReadWriteIORequest.

(** ** SyncIORequest *)

Module SyncIORequest.

Record t : Type := mk { sys : SyscallIORequest.t }.

(** [SyncIORequest.__init__(self, begin_ts, size, tid, syscall_name)] *)
Definition init (begin_ts : Z) (size : value) (tid : value)
    (syscall_name : string) : t :=
  {| sys := SyscallIORequest.init begin_ts size tid IORequest.OP_SYNC
              syscall_name |}.

(** [update_from_exit(self, event)] *)
Definition update_from_exit (self : t) (event : Event) : result t :=
  s1 <- SyscallIORequest.update_from_exit (sys self) event ;;
  ret <- getint event "ret" ;;
  if 0 <=? ret
  then
    let s2 := SyscallIORequest.set_returned_size ret s1 in
    match SyscallIORequest.size s2 with
    | None => Ok {| sys := SyscallIORequest.set_size ret s2 |}
    | Some _ => Ok {| sys := s2 |}
    end
  else Ok {| sys := s1 |}.

(** [new_from_sync(cls, event, tid)] *)
Definition new_from_sync (event : Event) (tid : value) : t :=
  let begin_ts := timestamp event in
  let size := VNone in
  init begin_ts size tid "sync".

Section with_common.
Context {common : Common}.

(** [new_from_fsync(cls, event, tid)]; also handles fdatasync. *)
Definition new_from_fsync (event : Event) (tid : value) : result t :=
  let begin_ts := timestamp event in
  let size := VNone in
  let syscall_name := get_syscall_name event in
  let req := init begin_ts size tid syscall_name in
  fd <- getitem event "fd" ;;
  Ok {| sys := SyscallIORequest.set_fd fd (sys req) |}.

End with_common.

(** [new_from_sync_file_range(cls, event, tid)] *)
Definition new_from_sync_file_range (event : Event) (tid : value)
    : result t :=
  let begin_ts := timestamp event in
  size <- getitem event "nbytes" ;;
  let req := init begin_ts size tid "sync_file_range" in
  fd <- getitem event "fd" ;;
  Ok {| sys := SyscallIORequest.set_fd fd (sys req) |}.

Definition size (self : t) : option Z := SyscallIORequest.size (sys self).

End SyncIORequest.

(** ** BlockIORequest *)

Module BlockIORequest.

(** Logical sector size in bytes, according to the kernel *)
Definition SECTOR_SIZE : Z := 512.

Record t : Type := mk {
  base : IORequest.t;
  dev : value;
  sector : value;
  nr_sector : value
}.

(** [BlockIORequest.__init__(self, begin_ts, tid, operation, dev, sector,
    nr_sector)].  The product [nr_sector * SECTOR_SIZE] is taken on
    integers; a sector count that is not an integer is outside the
    model and reported as [TypeError]. *)
Definition init (begin_ts : Z) (tid : value) (operation : Z)
    (dev sector nr_sector : value) : result t :=
  n <- as_int nr_sector ;;
  let size := n * SECTOR_SIZE in
  Ok {| base := IORequest.init begin_ts (Some size) tid operation;
        dev := dev;
        sector := sector;
        nr_sector := nr_sector |}.

(** [update_from_rq_complete(self, event)] *)
Definition update_from_rq_complete (self : t) (event : Event) : t :=
  let end_ts := timestamp event in
  let b1 := IORequest.set_end end_ts (base self) in
  let b2 := IORequest.set_duration (end_ts - IORequest.begin_ts b1) b1 in
  {| base := b2; dev := dev self; sector := sector self;
     nr_sector := nr_sector self |}.

(** [new_from_rq_issue(cls, event)].  Python's [%] with a positive
    modulus is the floored remainder, which is [Z.modulo].
    An even rwbs indicates read operation, odd indicates write. *)
Definition new_from_rq_issue (event : Event) : result t :=
  let begin_ts := timestamp event in
  dev <- getitem event "dev" ;;
  sector <- getitem event "sector" ;;
  nr_sector <- getitem event "nr_sector" ;;
  tid <- getitem event "tid" ;;
  rwbs <- getint event "rwbs" ;;
  let operation :=
    if rwbs mod 2 =? 0 then IORequest.OP_READ else IORequest.OP_WRITE in
  init begin_ts tid operation dev sector nr_sector.

Definition size (self : t) : option Z := IORequest.size (base self).
Definition operation (self : t) : Z := IORequest.operation (base self).

End BlockIORequest.

(** ** Software interrupts on a CPU *)

Module SoftIRQTracker.

(** The handlers that react to the softirq raise and entry events belong
    to the automaton that consumes [sv.py]; they are not part of this
    module.  The specification gives two creation paths, raise (raise_ts
    only) and entry (begin_ts only), a pending structure per CPU keyed by
    vector to a list in chronological order, and requires that an entry
    on a vector with a raised, pending record completes that record
    instead of adding a second one. *)

(** Modelled from the spec: the pending records of a vector, the empty
    list for a vector that has no entry in the CPU's dictionary. *)
Definition pending (cpu : CPU.t) (vec : Z) : list SoftIRQ.t :=
  default [] (CPU.current_softirqs cpu !! vec).

(** Modelled from the spec: the raise handler, which is missing from the
    sources.  A raise appends a record built by
    [SoftIRQ.new_from_softirq_raise] to the list of its vector. *)
Definition process_softirq_raise (cpu : CPU.t) (event : Event)
    : result CPU.t :=
  vec <- getint event "vec" ;;
  irq <- SoftIRQ.new_from_softirq_raise event ;;
  Ok (CPU.set_current_softirqs
        (<[vec := (pending cpu vec ++ [irq])%list]>
           (CPU.current_softirqs cpu)) cpu).

(** Modelled from the spec: the entry handler, which is missing from the
    sources.  An entry writes its timestamp as begin_ts of the oldest
    pending record of its vector; only when the vector has no pending
    record does it append one built by
    [SoftIRQ.new_from_softirq_entry]. *)
Definition process_softirq_entry (cpu : CPU.t) (event : Event)
    : result CPU.t :=
  vec <- getint event "vec" ;;
  match pending cpu vec with
  | first :: rest =>
      Ok (CPU.set_current_softirqs
            (<[vec := SoftIRQ.set_begin_ts (timestamp event) first :: rest]>
               (CPU.current_softirqs cpu)) cpu)
  | [] =>
      irq <- SoftIRQ.new_from_softirq_entry event ;;
      Ok (CPU.set_current_softirqs
            (<[vec := [irq]]> (CPU.current_softirqs cpu)) cpu)
  end.

End SoftIRQTracker.

(** ** Any syscall request *)

Module SyscallRequest.

(** An instance of [SyscallIORequest] or of one of its four subclasses.
    A method call on such an object runs the method of its class: the
    override of [update_from_exit] for an open, read/write or sync
    request, the inherited one otherwise. *)
Inductive t : Type :=
  | Plain (s : SyscallIORequest.t)
  | Open (o : OpenIORequest.t)
  | Close (c : CloseIORequest.t)
  | ReadWrite (r : ReadWriteIORequest.t)
  | Sync (y : SyncIORequest.t).

(** The attributes that every class inherits from [SyscallIORequest]. *)
Definition sys (rq : t) : SyscallIORequest.t :=
  match rq with
  | Plain s => s
  | Open o => OpenIORequest.sys o
  | Close c => CloseIORequest.sys c
  | ReadWrite r => ReadWriteIORequest.sys r
  | Sync y => SyncIORequest.sys y
  end.

Definition base (rq : t) : IORequest.t := SyscallIORequest.base (sys rq).

(** [rq.update_from_exit(event)] *)
Definition update_from_exit (rq : t) (event : Event) : result t :=
  match rq with
  | Plain s =>
      s' <- SyscallIORequest.update_from_exit s event ;; Ok (Plain s')
  | Open o =>
      o' <- OpenIORequest.update_from_exit o event ;; Ok (Open o')
  | Close c =>
      c' <- CloseIORequest.update_from_exit c event ;; Ok (Close c')
  | ReadWrite r =>
      r' <- ReadWriteIORequest.update_from_exit r event ;; Ok (ReadWrite r')
  | Sync y =>
      y' <- SyncIORequest.update_from_exit y event ;; Ok (Sync y')
  end.

(** The attributes a subclass adds to those of [SyscallIORequest]. *)
Definition same_class_attributes (rq rq' : t) : Prop :=
  match rq, rq' with
  | Plain _, Plain _ => True
  | Open o, Open o' =>
      OpenIORequest.filename o' = OpenIORequest.filename o /\
      OpenIORequest.fd_type o' = OpenIORequest.fd_type o /\
      OpenIORequest.family o' = OpenIORequest.family o /\
      OpenIORequest.cloexec o' = OpenIORequest.cloexec o
  | Close _, Close _ => True
  | ReadWrite r, ReadWrite r' =>
      ReadWriteIORequest.fd_in r' = ReadWriteIORequest.fd_in r /\
      ReadWriteIORequest.fd_out r' = ReadWriteIORequest.fd_out r
  | Sync _, Sync _ => True
  | _, _ => False
  end.

Definition is_open (rq : t) : bool :=
  match rq with
  | Open _ => true
  | _ => false
  end.

(** The classes whose exit update records the returned size. *)
Definition records_size (rq : t) : bool :=
  match rq with
  | ReadWrite _ | Sync _ => true
  | _ => false
  end.

(** What one exit update with the integer return value [n] at timestamp
    [ts] does to a request: the attributes it leaves alone, and the new
    content of the ones it may write. *)
Definition exit_effect (ts n : Z) (rq rq' : t) : Prop :=
  same_class_attributes rq rq' /\
  IORequest.begin_ts (base rq') = IORequest.begin_ts (base rq) /\
  IORequest.tid (base rq') = IORequest.tid (base rq) /\
  IORequest.operation (base rq') = IORequest.operation (base rq) /\
  SyscallIORequest.syscall_name (sys rq') =
    SyscallIORequest.syscall_name (sys rq) /\
  SyscallIORequest.pages_allocated (sys rq') =
    SyscallIORequest.pages_allocated (sys rq) /\
  SyscallIORequest.pages_freed (sys rq') =
    SyscallIORequest.pages_freed (sys rq) /\
  SyscallIORequest.pages_written (sys rq') =
    SyscallIORequest.pages_written (sys rq) /\
  SyscallIORequest.woke_kswapd (sys rq') =
    SyscallIORequest.woke_kswapd (sys rq) /\
  IORequest.end_ts (base rq') = Some ts /\
  IORequest.duration (base rq') = Some (ts - IORequest.begin_ts (base rq)) /\
  IORequest.errno (base rq') =
    (if n <? 0 then Some (- n) else IORequest.errno (base rq)) /\
  SyscallIORequest.fd (sys rq') =
    (if is_open rq && (0 <=? n) then VInt n
     else SyscallIORequest.fd (sys rq)) /\
  SyscallIORequest.returned_size (sys rq') =
    (if records_size rq && (0 <=? n) then Some n
     else SyscallIORequest.returned_size (sys rq)) /\
  IORequest.size (base rq') =
    (if records_size rq && (0 <=? n)
     then match IORequest.size (base rq) with
          | None => Some n
          | Some m => Some m
          end
     else IORequest.size (base rq)).

End SyscallRequest.

(** ** SyscallEvent *)

Module SyscallEvent.

Record t : Type := mk {
  name : string;
  begin_ts : Z;
  end_ts : option Z;
  ret : value;
  duration : option Z;
  (** Only applicable to I/O syscalls *)
  io_rq : option SyscallRequest.t
}.

(** [SyscallEvent.__init__(self, name, begin_ts)] *)
Definition init (name : string) (begin_ts : Z) : t :=
  {| name := name;
     begin_ts := begin_ts;
     end_ts := None;
     ret := VNone;
     duration := None;
     io_rq := None |}.

(** [process_exit(self, event)]: the return value is stored as it is, no
    operation is applied to it. *)
Definition process_exit (self : t) (event : Event) : result t :=
  let end_ts := timestamp event in
  ret <- getitem event "ret" ;;
  Ok {| name := name self;
        begin_ts := begin_ts self;
        end_ts := Some end_ts;
        ret := ret;
        duration := Some (end_ts - begin_ts self);
        io_rq := io_rq self |}.

(** The assignment [self.io_rq = rq]. *)
Definition set_io_rq (rq : SyscallRequest.t) (self : t) : t :=
  {| name := name self; begin_ts := begin_ts self; end_ts := end_ts self;
     ret := ret self; duration := duration self; io_rq := Some rq |}.

Section with_common.
Context {common : Common}.

(** [new_from_entry(cls, event)] *)
Definition new_from_entry (event : Event) : t :=
  let name := get_syscall_name event in
  init name (timestamp event).

End with_common.

End SyscallEvent.

(** ** Process, Disk, MemoryManagement, BlockRemapRequest *)

Module Process.

Record t : Type := mk {
  tid : value;
  pid : value;
  comm : value;
  (** indexed by fd *)
  fds : gmap Z FD.t;
  current_syscall : option SyscallEvent.t;
  (** the process scheduled before this one *)
  prev_tid : value
}.

(** [Process.__init__(self, tid=None, pid=None, comm='')] *)
Definition init (tid pid comm : value) : t :=
  {| tid := tid; pid := pid; comm := comm; fds := ∅;
     current_syscall := None; prev_tid := VNone |}.

End Process.

Module Disk.

(** pending block IO Requests, indexed by sector *)
Record t : Type := mk { pending_requests : gmap Z BlockIORequest.t }.

(** [Disk.__init__(self)] *)
Definition init : t := {| pending_requests := ∅ |}.

End Disk.

Module MemoryManagement.

Record t : Type := mk { page_count : Z }.

(** [MemoryManagement.__init__(self)] *)
Definition init : t := {| page_count := 0 |}.

End MemoryManagement.

Module BlockRemapRequest.

Record t : Type := mk {
  dev : value;
  sector : value;
  old_dev : value;
  old_sector : value
}.

(** [BlockRemapRequest.__init__(self, dev, sector, old_dev, old_sector)] *)
Definition init (dev sector old_dev old_sector : value) : t :=
  {| dev := dev; sector := sector; old_dev := old_dev;
     old_sector := old_sector |}.

End BlockRemapRequest.

(** ** Sample data for the closed examples *)

Module Sample.

(** An instance of [Common]: the syscall name is the event's name, and
    [O_CLOEXEC] is octal 2000000 as in the Linux headers. *)
Definition common : Common :=
  {| get_syscall_name := fun event => name event;
     O_CLOEXEC := 524288 |}.

(** open("/tmp/a", O_WRONLY | O_CLOEXEC) entered at 10. *)
Definition open_entry : Event :=
  {| timestamp := 10; name := "open";
     fields := {[ "filename" := VStr "/tmp/a"; "flags" := VInt 524289 ]} |}.

(** A syscall exit at 12 returning 7. *)
Definition exit_7 : Event :=
  {| timestamp := 12; name := "exit_syscall";
     fields := {[ "ret" := VInt 7 ]} |}.

(** A syscall exit at 12 failing with ENOENT. *)
Definition exit_enoent : Event :=
  {| timestamp := 12; name := "exit_syscall";
     fields := {[ "ret" := VInt (-2) ]} |}.

(** splice(fd_in=3, fd_out=4, len=4096) entered at 10. *)
Definition splice_entry : Event :=
  {| timestamp := 10; name := "splice";
     fields := {[ "fd_in" := VInt 3; "fd_out" := VInt 4;
                  "len" := VInt 4096 ]} |}.

(** sendfile64(out_fd=4, in_fd=3, count=4096) entered at 10. *)
Definition sendfile64_entry : Event :=
  {| timestamp := 10; name := "sendfile64";
     fields := {[ "out_fd" := VInt 4; "in_fd" := VInt 3;
                  "count" := VInt 4096 ]} |}.

(** read(fd=3, count=4096) entered at 10. *)
Definition read_entry : Event :=
  {| timestamp := 10; name := "read";
     fields := {[ "fd" := VInt 3; "count" := VInt 4096 ]} |}.

(** sync_file_range(fd=3, nbytes=4096) entered at 10. *)
Definition sync_file_range_entry : Event :=
  {| timestamp := 10; name := "sync_file_range";
     fields := {[ "fd" := VInt 3; "nbytes" := VInt 4096 ]} |}.

(** sync() entered at 10. *)
Definition sync_entry : Event :=
  {| timestamp := 10; name := "sync"; fields := ∅ |}.

(** dup(3) entered at 10. *)
Definition dup_entry : Event :=
  {| timestamp := 10; name := "dup";
     fields := {[ "fildes" := VInt 3 ]} |}.

(** A block request of 8 sectors issued at 10 with the given rwbs. *)
Definition rq_issue (rwbs : Z) : Event :=
  {| timestamp := 10; name := "block_rq_issue";
     fields := {[ "dev" := VInt 8388608; "sector" := VInt 2048;
                  "nr_sector" := VInt 8; "tid" := VInt 42;
                  "rwbs" := VInt rwbs ]} |}.

(** Its completion at 15. *)
Definition rq_complete : Event :=
  {| timestamp := 15; name := "block_rq_complete";
     fields := {[ "dev" := VInt 8388608; "sector" := VInt 2048 ]} |}.

(** softirq raise and entry on a vector. *)
Definition softirq_raise (ts vec : Z) (cpu_id : value) : Event :=
  {| timestamp := ts; name := "softirq_raise";
     fields := {[ "vec" := VInt vec; "cpu_id" := cpu_id ]} |}.

Definition softirq_entry (ts vec : Z) (cpu_id : value) : Event :=
  {| timestamp := ts; name := "softirq_entry";
     fields := {[ "vec" := VInt vec; "cpu_id" := cpu_id ]} |}.

(** A descriptor of a disk file that has seen traffic; the two elements
    of its history stand for two earlier requests. *)
Definition used_fd : FD.t :=
  {| FD.filename := VStr "/tmp/a"; FD.fd := VInt 3;
     FD.family := VInt AF_UNSPEC; FD.fdtype := VInt FDType.disk;
     FD.parent := VNone; FD.cloexec := VBool true;
     FD.net_read := 0; FD.net_write := 0;
     FD.disk_read := 4096; FD.disk_write := 512;
     FD.unk_read := 0; FD.unk_write := 0;
     FD.read := 4096; FD.write := 512;
     FD.iorequests := [VInt 1; VInt 2] |}.

(** An event at 10 named after a syscall of no table, carrying an fd. *)
Definition ioctl_entry : Event :=
  {| timestamp := 10; name := "ioctl"; fields := {[ "fd" := VInt 3 ]} |}.

(** accept on an IPv4 socket, peer port 80, entered at 10. *)
Definition accept_entry : Event :=
  {| timestamp := 10; name := "accept";
     fields := {[ "family" := VInt AF_INET; "v4addr" := VInt 2130706433;
                  "sport" := VInt 80 ]} |}.

(** accept on a UNIX socket entered at 10: no address fields. *)
Definition accept_unix_entry : Event :=
  {| timestamp := 10; name := "accept";
     fields := {[ "family" := VInt AF_UNIX ]} |}.

(** A rendering of addresses for the examples: 127.0.0.1 for the integer
    2130706433, an error for a value that is not an integer. *)
Definition v4_addr_str (v : value) : result string :=
  match v with
  | VInt 2130706433 => Ok "127.0.0.1"
  | VInt _ => Ok "0.0.0.0"
  | _ => Err TypeError
  end.

(** A syscall exit at 12 returning 0. *)
Definition exit_0 : Event :=
  {| timestamp := 12; name := "exit_syscall";
     fields := {[ "ret" := VInt 0 ]} |}.

(** A syscall exit at 20 returning 100. *)
Definition exit_late : Event :=
  {| timestamp := 20; name := "exit_syscall";
     fields := {[ "ret" := VInt 100 ]} |}.

(** An exit event at 12 that carries no return value. *)
Definition exit_no_ret : Event :=
  {| timestamp := 12; name := "exit_syscall"; fields := ∅ |}.

(** An exit event whose return value is a string. *)
Definition exit_str : Event :=
  {| timestamp := 12; name := "exit_syscall";
     fields := {[ "ret" := VStr "EAGAIN" ]} |}.

(** recvmsg(fd=3) entered at 10: no size at entry. *)
Definition recvmsg_entry : Event :=
  {| timestamp := 10; name := "recvmsg";
     fields := {[ "fd" := VInt 3 ]} |}.

(** A read/write request as [new_from_fd_event] builds it for recvmsg. *)
Definition recvmsg_request : SyscallRequest.t :=
  SyscallRequest.ReadWrite
    (ReadWriteIORequest.init 10 VNone (VInt 42) IORequest.OP_READ "recvmsg").

(** An open request as [new_from_disk_open] builds it. *)
Definition open_request : SyscallRequest.t :=
  SyscallRequest.Open
    (OpenIORequest.init 10 (VInt 42) "open" (VStr "/tmp/a")
       (VInt FDType.disk)).

End Sample.

(** * Properties *)

(** ** Event lookups *)

Lemma getitem_Some event k v :
  fields event !! k = Some v -> getitem event k = Ok v.
Proof. unfold getitem. intros ->. reflexivity. Qed.

Lemma getint_Some event k n :
  fields event !! k = Some (VInt n) -> getint event k = Ok n.
Proof.
  unfold getint. intros H. rewrite (getitem_Some _ _ _ H). reflexivity.
Qed.

(** ** The exit update of a syscall request *)

Section exit_update.
Variables (event : Event) (ret : Z).
Hypothesis Hret : fields event !! "ret" = Some (VInt ret).

(** With an integer [ret] in the event the update returns, and its
    result is known in closed form. *)
Lemma syscall_update_from_exit_eq (self : SyscallIORequest.t) :
  SyscallIORequest.update_from_exit self event =
  let b := IORequest.set_duration
             (timestamp event - IORequest.begin_ts (SyscallIORequest.base self))
             (IORequest.set_end (timestamp event) (SyscallIORequest.base self)) in
  Ok (SyscallIORequest.set_base
        (if ret <? 0 then IORequest.set_errno (- ret) b else b) self).
Proof.
  unfold SyscallIORequest.update_from_exit.
  rewrite (getint_Some _ _ _ Hret). simpl.
  destruct (ret <? 0); reflexivity.
Qed.

Lemma syscall_update_finalized (self : SyscallIORequest.t) :
  IORequest.begin_ts (SyscallIORequest.base self) <= timestamp event ->
  exists self',
    SyscallIORequest.update_from_exit self event = Ok self' /\
    IORequest.finalized (SyscallIORequest.base self') /\
    IORequest.begin_ts (SyscallIORequest.base self') =
      IORequest.begin_ts (SyscallIORequest.base self).
Proof.
  intros Hle. rewrite syscall_update_from_exit_eq. eexists. split; [reflexivity|].
  split; [|destruct (ret <? 0); reflexivity].
  exists (timestamp event). destruct (ret <? 0); simpl; auto.
Qed.

Lemma syscall_update_errno (self : SyscallIORequest.t) :
  exists self',
    SyscallIORequest.update_from_exit self event = Ok self' /\
    SyscallIORequest.errno self' =
      (if ret <? 0 then Some (- ret) else SyscallIORequest.errno self) /\
    SyscallIORequest.size self' = SyscallIORequest.size self /\
    SyscallIORequest.fd self' = SyscallIORequest.fd self /\
    SyscallIORequest.returned_size self' =
      SyscallIORequest.returned_size self.
Proof.
  rewrite syscall_update_from_exit_eq. eexists. split; [reflexivity|].
  destruct (ret <? 0); simpl; auto.
Qed.

End exit_update.

(** ** Timing of finalized requests *)

(** The exit updates of the four subclasses change the timing attributes
    only through the update of [SyscallIORequest]. *)
Lemma open_update_base (event : Event) (ret : Z) (self : OpenIORequest.t) :
  fields event !! "ret" = Some (VInt ret) ->
  exists s' self',
    SyscallIORequest.update_from_exit (OpenIORequest.sys self) event = Ok s' /\
    OpenIORequest.update_from_exit self event = Ok self' /\
    SyscallIORequest.base (OpenIORequest.sys self') = SyscallIORequest.base s' /\
    SyscallIORequest.fd (OpenIORequest.sys self') =
      (if 0 <=? ret then VInt ret else SyscallIORequest.fd s') /\
    OpenIORequest.cloexec self' = OpenIORequest.cloexec self.
Proof.
  intros Hret. unfold OpenIORequest.update_from_exit.
  rewrite (syscall_update_from_exit_eq _ _ Hret), (getint_Some _ _ _ Hret).
  simpl. eexists. destruct (0 <=? ret); eexists; repeat split.
Qed.

Lemma close_update_base (event : Event) (ret : Z) (self : CloseIORequest.t) :
  fields event !! "ret" = Some (VInt ret) ->
  exists s',
    SyscallIORequest.update_from_exit (CloseIORequest.sys self) event = Ok s' /\
    CloseIORequest.update_from_exit self event = Ok (CloseIORequest.mk s').
Proof.
  intros Hret. unfold CloseIORequest.update_from_exit.
  rewrite (syscall_update_from_exit_eq _ _ Hret). simpl. eexists. split; reflexivity.
Qed.

Lemma readwrite_update_base (event : Event) (ret : Z)
    (self : ReadWriteIORequest.t) :
  fields event !! "ret" = Some (VInt ret) ->
  exists s' self',
    SyscallIORequest.update_from_exit (ReadWriteIORequest.sys self) event = Ok s' /\
    ReadWriteIORequest.update_from_exit self event = Ok self' /\
    IORequest.begin_ts (SyscallIORequest.base (ReadWriteIORequest.sys self')) =
      IORequest.begin_ts (SyscallIORequest.base s') /\
    IORequest.end_ts (SyscallIORequest.base (ReadWriteIORequest.sys self')) =
      IORequest.end_ts (SyscallIORequest.base s') /\
    IORequest.duration (SyscallIORequest.base (ReadWriteIORequest.sys self')) =
      IORequest.duration (SyscallIORequest.base s') /\
    IORequest.errno (SyscallIORequest.base (ReadWriteIORequest.sys self')) =
      IORequest.errno (SyscallIORequest.base s').
Proof.
  intros Hret. unfold ReadWriteIORequest.update_from_exit.
  rewrite (syscall_update_from_exit_eq _ _ Hret), (getint_Some _ _ _ Hret).
  simpl. eexists.
  destruct (0 <=? ret); [|eexists; repeat split].
  destruct (IORequest.size (SyscallIORequest.base self.(ReadWriteIORequest.sys))) eqn:Hs;
    destruct (ret <? 0); unfold SyscallIORequest.size; simpl; rewrite Hs;
    eexists; repeat split.
Qed.

Lemma sync_update_base (event : Event) (ret : Z) (self : SyncIORequest.t) :
  fields event !! "ret" = Some (VInt ret) ->
  exists s' self',
    SyscallIORequest.update_from_exit (SyncIORequest.sys self) event = Ok s' /\
    SyncIORequest.update_from_exit self event = Ok self' /\
    IORequest.begin_ts (SyscallIORequest.base (SyncIORequest.sys self')) =
      IORequest.begin_ts (SyscallIORequest.base s') /\
    IORequest.end_ts (SyscallIORequest.base (SyncIORequest.sys self')) =
      IORequest.end_ts (SyscallIORequest.base s') /\
    IORequest.duration (SyscallIORequest.base (SyncIORequest.sys self')) =
      IORequest.duration (SyscallIORequest.base s') /\
    IORequest.errno (SyscallIORequest.base (SyncIORequest.sys self')) =
      IORequest.errno (SyscallIORequest.base s').
Proof.
  intros Hret. unfold SyncIORequest.update_from_exit.
  rewrite (syscall_update_from_exit_eq _ _ Hret), (getint_Some _ _ _ Hret).
  simpl. eexists.
  destruct (0 <=? ret); [|eexists; repeat split].
  destruct (IORequest.size (SyscallIORequest.base self.(SyncIORequest.sys))) eqn:Hs;
    destruct (ret <? 0); unfold SyscallIORequest.size; simpl; rewrite Hs;
    eexists; repeat split.
Qed.

Lemma finalized_ext (r r' : IORequest.t) :
  IORequest.begin_ts r' = IORequest.begin_ts r ->
  IORequest.end_ts r' = IORequest.end_ts r ->
  IORequest.duration r' = IORequest.duration r ->
  IORequest.finalized r -> IORequest.finalized r'.
Proof.
  unfold IORequest.finalized. intros -> -> ->. auto.
Qed.

(** C2: a request finalized by its exit update (for every class of syscall
    request) or by its completion update (for a block request), from an
    event whose timestamp is not smaller than the request's begin
    timestamp, has an end timestamp not smaller than its begin timestamp
    and a duration equal to their exact difference; the exit update
    returns whenever the event carries an integer [ret]. *)
Theorem finalized_request_timing (exit complete : Event) (ret : Z) :
  fields exit !! "ret" = Some (VInt ret) ->
  (forall s : SyscallIORequest.t,
      IORequest.begin_ts (SyscallIORequest.base s) <= timestamp exit ->
      exists s', SyscallIORequest.update_from_exit s exit = Ok s' /\
                 IORequest.finalized (SyscallIORequest.base s')) /\
  (forall o : OpenIORequest.t,
      IORequest.begin_ts (SyscallIORequest.base (OpenIORequest.sys o))
        <= timestamp exit ->
      exists o', OpenIORequest.update_from_exit o exit = Ok o' /\
                 IORequest.finalized
                   (SyscallIORequest.base (OpenIORequest.sys o'))) /\
  (forall c : CloseIORequest.t,
      IORequest.begin_ts (SyscallIORequest.base (CloseIORequest.sys c))
        <= timestamp exit ->
      exists c', CloseIORequest.update_from_exit c exit = Ok c' /\
                 IORequest.finalized
                   (SyscallIORequest.base (CloseIORequest.sys c'))) /\
  (forall r : ReadWriteIORequest.t,
      IORequest.begin_ts (SyscallIORequest.base (ReadWriteIORequest.sys r))
        <= timestamp exit ->
      exists r', ReadWriteIORequest.update_from_exit r exit = Ok r' /\
                 IORequest.finalized
                   (SyscallIORequest.base (ReadWriteIORequest.sys r'))) /\
  (forall y : SyncIORequest.t,
      IORequest.begin_ts (SyscallIORequest.base (SyncIORequest.sys y))
        <= timestamp exit ->
      exists y', SyncIORequest.update_from_exit y exit = Ok y' /\
                 IORequest.finalized
                   (SyscallIORequest.base (SyncIORequest.sys y'))) /\
  (forall b : BlockIORequest.t,
      IORequest.begin_ts (BlockIORequest.base b) <= timestamp complete ->
      IORequest.finalized
        (BlockIORequest.base
           (BlockIORequest.update_from_rq_complete b complete))).
Proof.
  intros Hret. repeat split.
  - intros s Hle.
    destruct (syscall_update_finalized _ _ Hret s Hle) as (s' & He & Hf & _).
    eauto.
  - intros o Hle.
    destruct (syscall_update_finalized _ _ Hret _ Hle) as (s' & He & Hf & _).
    destruct (open_update_base _ _ o Hret) as (s2 & o' & He2 & Hu & Hb & _).
    rewrite He in He2. injection He2 as <-.
    exists o'. split; [exact Hu|]. rewrite Hb. exact Hf.
  - intros c Hle.
    destruct (syscall_update_finalized _ _ Hret _ Hle) as (s' & He & Hf & _).
    destruct (close_update_base _ _ c Hret) as (s2 & He2 & Hu).
    rewrite He in He2. injection He2 as <-.
    eexists. split; [exact Hu|]. exact Hf.
  - intros r Hle.
    destruct (syscall_update_finalized _ _ Hret _ Hle) as (s' & He & Hf & _).
    destruct (readwrite_update_base _ _ r Hret)
      as (s2 & r' & He2 & Hu & Hb & Hen & Hd & _).
    rewrite He in He2. injection He2 as <-.
    exists r'. split; [exact Hu|]. exact (finalized_ext _ _ Hb Hen Hd Hf).
  - intros y Hle.
    destruct (syscall_update_finalized _ _ Hret _ Hle) as (s' & He & Hf & _).
    destruct (sync_update_base _ _ y Hret)
      as (s2 & y' & He2 & Hu & Hb & Hen & Hd & _).
    rewrite He in He2. injection He2 as <-.
    exists y'. split; [exact Hu|]. exact (finalized_ext _ _ Hb Hen Hd Hf).
  - intros b Hle. exists (timestamp complete). simpl. auto.
Qed.

Lemma finalized_request_timing_witness :
  (exists r',
      ReadWriteIORequest.update_from_exit
        (ReadWriteIORequest.init 10 VNone (VInt 42) IORequest.OP_READ "recvmsg")
        Sample.exit_7 = Ok r' /\
      IORequest.finalized
        (SyscallIORequest.base (ReadWriteIORequest.sys r'))) /\
  (forall b,
      BlockIORequest.new_from_rq_issue (Sample.rq_issue 4) = Ok b ->
      IORequest.finalized
        (BlockIORequest.base
           (BlockIORequest.update_from_rq_complete b Sample.rq_complete))).
Proof.
  destruct (finalized_request_timing Sample.exit_7 Sample.rq_complete 7)
    as (_ & _ & _ & Hrw & _ & Hblk).
  - reflexivity.
  - split.
    + apply Hrw. simpl. lia.
    + intros b Hb. apply Hblk. vm_compute in Hb. injection Hb as <-.
      simpl. lia.
Defined.

(** ** Returned size and size backfill *)

Lemma readwrite_update_size (event : Event) (ret : Z)
    (self : ReadWriteIORequest.t) :
  fields event !! "ret" = Some (VInt ret) -> 0 <= ret ->
  exists self',
    ReadWriteIORequest.update_from_exit self event = Ok self' /\
    SyscallIORequest.returned_size (ReadWriteIORequest.sys self') = Some ret /\
    ReadWriteIORequest.size self' =
      match ReadWriteIORequest.size self with
      | None => Some ret
      | Some n => Some n
      end.
Proof.
  intros Hret Hpos. unfold ReadWriteIORequest.update_from_exit.
  rewrite (syscall_update_from_exit_eq _ _ Hret), (getint_Some _ _ _ Hret).
  simpl.
  assert ((ret <? 0) = false) as -> by lia.
  assert ((0 <=? ret) = true) as -> by lia.
  unfold ReadWriteIORequest.size, SyscallIORequest.size. simpl.
  destruct (IORequest.size _) eqn:Hs; eexists; repeat split; simpl; auto.
Qed.

Lemma sync_update_size (event : Event) (ret : Z) (self : SyncIORequest.t) :
  fields event !! "ret" = Some (VInt ret) -> 0 <= ret ->
  exists self',
    SyncIORequest.update_from_exit self event = Ok self' /\
    SyscallIORequest.returned_size (SyncIORequest.sys self') = Some ret /\
    SyncIORequest.size self' =
      match SyncIORequest.size self with
      | None => Some ret
      | Some n => Some n
      end.
Proof.
  intros Hret Hpos. unfold SyncIORequest.update_from_exit.
  rewrite (syscall_update_from_exit_eq _ _ Hret), (getint_Some _ _ _ Hret).
  simpl.
  assert ((ret <? 0) = false) as -> by lia.
  assert ((0 <=? ret) = true) as -> by lia.
  unfold SyncIORequest.size, SyscallIORequest.size. simpl.
  destruct (IORequest.size _) eqn:Hs; eexists; repeat split; simpl; auto.
Qed.

(** C3: the exit update of a read/write or sync request with a
    non-negative [ret] returns a request whose returned_size is [ret]; when
    size was unset at entry, size becomes [ret], hence equal to
    returned_size; when size was already set, it is unchanged. *)
Theorem exit_backfills_unset_size (event : Event) (ret : Z) :
  fields event !! "ret" = Some (VInt ret) -> 0 <= ret ->
  (forall r : ReadWriteIORequest.t,
      exists r',
        ReadWriteIORequest.update_from_exit r event = Ok r' /\
        SyscallIORequest.returned_size (ReadWriteIORequest.sys r') = Some ret /\
        (ReadWriteIORequest.size r = None ->
           ReadWriteIORequest.size r' = Some ret /\
           ReadWriteIORequest.size r' =
             SyscallIORequest.returned_size (ReadWriteIORequest.sys r')) /\
        (forall n, ReadWriteIORequest.size r = Some n ->
           ReadWriteIORequest.size r' = Some n)) /\
  (forall y : SyncIORequest.t,
      exists y',
        SyncIORequest.update_from_exit y event = Ok y' /\
        SyscallIORequest.returned_size (SyncIORequest.sys y') = Some ret /\
        (SyncIORequest.size y = None ->
           SyncIORequest.size y' = Some ret /\
           SyncIORequest.size y' =
             SyscallIORequest.returned_size (SyncIORequest.sys y')) /\
        (forall n, SyncIORequest.size y = Some n ->
           SyncIORequest.size y' = Some n)).
Proof.
  intros Hret Hpos. split.
  - intros r.
    destruct (readwrite_update_size _ _ r Hret Hpos) as (r' & Hu & Hrs & Hsz).
    exists r'. split; [exact Hu|]. split; [exact Hrs|]. split.
    + intros Hn. rewrite Hsz, Hn, Hrs. split; reflexivity.
    + intros n Hn. rewrite Hsz, Hn. reflexivity.
  - intros y.
    destruct (sync_update_size _ _ y Hret Hpos) as (y' & Hu & Hrs & Hsz).
    exists y'. split; [exact Hu|]. split; [exact Hrs|]. split.
    + intros Hn. rewrite Hsz, Hn, Hrs. split; reflexivity.
    + intros n Hn. rewrite Hsz, Hn. reflexivity.
Qed.

Lemma exit_backfills_unset_size_witness :
  exists y',
    SyncIORequest.update_from_exit
      (SyncIORequest.new_from_sync Sample.sync_entry (VInt 42)) Sample.exit_7
      = Ok y' /\
    SyscallIORequest.returned_size (SyncIORequest.sys y') = Some 7 /\
    SyncIORequest.size y' = Some 7.
Proof.
  destruct (exit_backfills_unset_size Sample.exit_7 7) as [_ Hsync].
  - reflexivity.
  - lia.
  - destruct (Hsync (SyncIORequest.new_from_sync Sample.sync_entry (VInt 42)))
      as (y' & Hu & Hrs & Hnone & _).
    exists y'. split; [exact Hu|]. split; [exact Hrs|].
    apply Hnone. reflexivity.
Defined.

(** ** Failed calls *)

(** C6: the exit update of a request that is not an open request (a plain
    syscall request, a close, read/write or sync request) returns for every
    integer [ret]; with a negative [ret] it binds errno to the positive
    value [- ret], with a non-negative [ret] it leaves errno as it was, so
    an unset errno remains unset. *)
Theorem nonopen_exit_errno (event : Event) (ret : Z) :
  fields event !! "ret" = Some (VInt ret) ->
  (forall s : SyscallIORequest.t,
      exists s',
        SyscallIORequest.update_from_exit s event = Ok s' /\
        (ret < 0 -> SyscallIORequest.errno s' = Some (- ret) /\ 0 < - ret) /\
        (0 <= ret -> SyscallIORequest.errno s' = SyscallIORequest.errno s)) /\
  (forall c : CloseIORequest.t,
      exists c',
        CloseIORequest.update_from_exit c event = Ok c' /\
        (ret < 0 ->
           SyscallIORequest.errno (CloseIORequest.sys c') = Some (- ret) /\
           0 < - ret) /\
        (0 <= ret ->
           SyscallIORequest.errno (CloseIORequest.sys c') =
           SyscallIORequest.errno (CloseIORequest.sys c))) /\
  (forall r : ReadWriteIORequest.t,
      exists r',
        ReadWriteIORequest.update_from_exit r event = Ok r' /\
        (ret < 0 ->
           SyscallIORequest.errno (ReadWriteIORequest.sys r') = Some (- ret) /\
           0 < - ret) /\
        (0 <= ret ->
           SyscallIORequest.errno (ReadWriteIORequest.sys r') =
           SyscallIORequest.errno (ReadWriteIORequest.sys r))) /\
  (forall y : SyncIORequest.t,
      exists y',
        SyncIORequest.update_from_exit y event = Ok y' /\
        (ret < 0 ->
           SyscallIORequest.errno (SyncIORequest.sys y') = Some (- ret) /\
           0 < - ret) /\
        (0 <= ret ->
           SyscallIORequest.errno (SyncIORequest.sys y') =
           SyscallIORequest.errno (SyncIORequest.sys y))).
Proof.
  intros Hret.
  assert (Hsys : forall s : SyscallIORequest.t,
      exists s',
        SyscallIORequest.update_from_exit s event = Ok s' /\
        (ret < 0 -> SyscallIORequest.errno s' = Some (- ret) /\ 0 < - ret) /\
        (0 <= ret -> SyscallIORequest.errno s' = SyscallIORequest.errno s)).
  { intros s.
    destruct (syscall_update_errno _ _ Hret s) as (s' & Hu & He & _).
    exists s'. split; [exact Hu|]. rewrite He.
    split; intros H.
    - assert ((ret <? 0) = true) as -> by lia. split; [reflexivity | lia].
    - assert ((ret <? 0) = false) as -> by lia. reflexivity. }
  repeat apply conj.
  - exact Hsys.
  - intros c. destruct (Hsys (CloseIORequest.sys c)) as (s' & Hu & Hneg & Hpos).
    destruct (close_update_base _ _ c Hret) as (s2 & Hu2 & Hc).
    rewrite Hu in Hu2. injection Hu2 as <-.
    eexists. split; [exact Hc|]. simpl. auto.
  - intros r.
    destruct (Hsys (ReadWriteIORequest.sys r)) as (s' & Hu & Hneg & Hpos).
    destruct (readwrite_update_base _ _ r Hret)
      as (s2 & r' & Hu2 & Hr & _ & _ & _ & He).
    rewrite Hu in Hu2. injection Hu2 as <-.
    exists r'. split; [exact Hr|]. unfold SyscallIORequest.errno in *.
    rewrite He. auto.
  - intros y.
    destruct (Hsys (SyncIORequest.sys y)) as (s' & Hu & Hneg & Hpos).
    destruct (sync_update_base _ _ y Hret)
      as (s2 & y' & Hu2 & Hy & _ & _ & _ & He).
    rewrite Hu in Hu2. injection Hu2 as <-.
    exists y'. split; [exact Hy|]. unfold SyscallIORequest.errno in *.
    rewrite He. auto.
Qed.

Lemma nonopen_exit_errno_witness :
  exists c',
    CloseIORequest.update_from_exit
      (CloseIORequest.init 10 (VInt 42) (VInt 3)) Sample.exit_enoent = Ok c' /\
    SyscallIORequest.errno (CloseIORequest.sys c') = Some 2.
Proof.
  destruct (nonopen_exit_errno Sample.exit_enoent (-2)) as (_ & Hclose & _).
  - reflexivity.
  - destruct (Hclose (CloseIORequest.init 10 (VInt 42) (VInt 3)))
      as (c' & Hu & Hneg & _).
    exists c'. split; [exact Hu|]. apply Hneg. lia.
Defined.

(** C10: the exit update of an open request with a negative [ret] returns,
    binds errno to the positive value [- ret] and leaves the fd attribute
    as it was; every constructor leaves fd unset, so fd remains [None]. *)
Theorem open_exit_failure (event : Event) (ret : Z) (o : OpenIORequest.t) :
  fields event !! "ret" = Some (VInt ret) -> ret < 0 ->
  exists o',
    OpenIORequest.update_from_exit o event = Ok o' /\
    SyscallIORequest.errno (OpenIORequest.sys o') = Some (- ret) /\
    0 < - ret /\
    SyscallIORequest.fd (OpenIORequest.sys o') =
      SyscallIORequest.fd (OpenIORequest.sys o) /\
    (SyscallIORequest.fd (OpenIORequest.sys o) = VNone ->
       SyscallIORequest.fd (OpenIORequest.sys o') = VNone).
Proof.
  intros Hret Hneg.
  destruct (syscall_update_errno _ _ Hret (OpenIORequest.sys o))
    as (s' & Hu & He & _ & Hfd & _).
  destruct (open_update_base _ _ o Hret) as (s2 & o' & Hu2 & Ho & Hb & Hfd' & _).
  rewrite Hu in Hu2. injection Hu2 as <-.
  assert ((ret <? 0) = true) as Hlt by lia.
  assert ((0 <=? ret) = false) as Hge by lia.
  rewrite Hlt in He. rewrite Hge in Hfd'.
  exists o'. split; [exact Ho|].
  unfold SyscallIORequest.errno in *. rewrite Hb, He, Hfd', Hfd.
  repeat split; auto; lia.
Qed.

Lemma open_exit_failure_witness :
  exists o',
    OpenIORequest.update_from_exit
      (OpenIORequest.init 10 (VInt 42) "open" (VStr "/tmp/a")
         (VInt FDType.disk))
      Sample.exit_enoent = Ok o' /\
    SyscallIORequest.errno (OpenIORequest.sys o') = Some 2 /\
    SyscallIORequest.fd (OpenIORequest.sys o') = VNone.
Proof.
  destruct (open_exit_failure Sample.exit_enoent (-2)
              (OpenIORequest.init 10 (VInt 42) "open" (VStr "/tmp/a")
                 (VInt FDType.disk)))
    as (o' & Hu & He & _ & _ & Hfd).
  - reflexivity.
  - lia.
  - exists o'. split; [exact Hu|]. split; [exact He|].
    apply Hfd. reflexivity.
Defined.

(** ** Opening a file *)

Lemma new_from_disk_open_eq {common : Common} (event : Event) (tid filename : value)
    (flags : Z) :
  fields event !! "filename" = Some filename ->
  fields event !! "flags" = Some (VInt flags) ->
  OpenIORequest.new_from_disk_open event tid =
  Ok (OpenIORequest.set_cloexec (Z.land flags O_CLOEXEC =? O_CLOEXEC)
        (OpenIORequest.init (timestamp event) tid (get_syscall_name event)
           filename (VInt FDType.disk))).
Proof.
  intros Hf Hfl. unfold OpenIORequest.new_from_disk_open.
  rewrite (getitem_Some _ _ _ Hf). simpl.
  rewrite (getint_Some _ _ _ Hfl). reflexivity.
Qed.

(** C8: an open request built by [new_from_disk_open] from an entry event
    at timestamp 10 with filename "/tmp/a" and flags that include
    O_CLOEXEC, then finalized by [update_from_exit] with an event at
    timestamp 12 and [ret] 7, has fd 7, cloexec true and duration 2; in
    general the exit update of an open request with a non-negative [ret]
    binds fd to [ret]. *)
Theorem open_then_exit {common : Common} (entry exit : Event) (tid : value)
    (flags : Z) :
  timestamp entry = 10 ->
  fields entry !! "filename" = Some (VStr "/tmp/a") ->
  fields entry !! "flags" = Some (VInt flags) ->
  Z.land flags O_CLOEXEC = O_CLOEXEC ->
  timestamp exit = 12 ->
  fields exit !! "ret" = Some (VInt 7) ->
  (exists req req',
      OpenIORequest.new_from_disk_open entry tid = Ok req /\
      OpenIORequest.update_from_exit req exit = Ok req' /\
      SyscallIORequest.fd (OpenIORequest.sys req') = VInt 7 /\
      OpenIORequest.cloexec req' = true /\
      IORequest.duration (SyscallIORequest.base (OpenIORequest.sys req'))
        = Some 2 /\
      OpenIORequest.filename req' = VStr "/tmp/a") /\
  (forall (o : OpenIORequest.t) (event : Event) (ret : Z),
      fields event !! "ret" = Some (VInt ret) -> 0 <= ret ->
      exists o',
        OpenIORequest.update_from_exit o event = Ok o' /\
        SyscallIORequest.fd (OpenIORequest.sys o') = VInt ret).
Proof.
  intros Hts Hfile Hflags Hland Hts' Hret. split.
  - rewrite (new_from_disk_open_eq _ _ _ _ Hfile Hflags).
    eexists. eexists. split; [reflexivity|].
    unfold OpenIORequest.update_from_exit.
    rewrite (syscall_update_from_exit_eq _ _ Hret), (getint_Some _ _ _ Hret).
    simpl. split; [reflexivity|]. simpl.
    rewrite Hland, Z.eqb_refl, Hts, Hts'. repeat split.
  - intros o event ret Hr Hpos.
    destruct (open_update_base _ _ o Hr) as (s2 & o' & _ & Ho & _ & Hfd & _).
    exists o'. split; [exact Ho|]. rewrite Hfd.
    assert ((0 <=? ret) = true) as -> by lia. reflexivity.
Qed.

Lemma open_then_exit_witness :
  exists req req',
    @OpenIORequest.new_from_disk_open Sample.common Sample.open_entry (VInt 42)
      = Ok req /\
    OpenIORequest.update_from_exit req Sample.exit_7 = Ok req' /\
    SyscallIORequest.fd (OpenIORequest.sys req') = VInt 7 /\
    OpenIORequest.cloexec req' = true /\
    IORequest.duration (SyscallIORequest.base (OpenIORequest.sys req'))
      = Some 2 /\
    OpenIORequest.filename req' = VStr "/tmp/a".
Proof.
  destruct (@open_then_exit Sample.common Sample.open_entry Sample.exit_7
              (VInt 42) 524289) as [Hex _]; try reflexivity.
  exact Hex.
Defined.

(** ** Block requests *)

(** C4: [new_from_rq_issue] classifies the operation by the parity of the
    event's rwbs field, read for an even value and write for an odd one,
    and binds the size to nr_sector times the sector size 512; in
    particular rwbs 4 gives a read and rwbs 5 a write. *)
Theorem rq_issue_parity_and_size (event : Event)
    (dev sector tid : value) (nr_sector rwbs : Z) :
  fields event !! "dev" = Some dev ->
  fields event !! "sector" = Some sector ->
  fields event !! "nr_sector" = Some (VInt nr_sector) ->
  fields event !! "tid" = Some tid ->
  fields event !! "rwbs" = Some (VInt rwbs) ->
  exists req,
    BlockIORequest.new_from_rq_issue event = Ok req /\
    (Z.even rwbs = true -> BlockIORequest.operation req = IORequest.OP_READ) /\
    (Z.odd rwbs = true -> BlockIORequest.operation req = IORequest.OP_WRITE) /\
    (rwbs = 4 -> BlockIORequest.operation req = IORequest.OP_READ) /\
    (rwbs = 5 -> BlockIORequest.operation req = IORequest.OP_WRITE) /\
    BlockIORequest.size req = Some (nr_sector * 512) /\
    BlockIORequest.SECTOR_SIZE = 512 /\
    IORequest.begin_ts (BlockIORequest.base req) = timestamp event /\
    BlockIORequest.dev req = dev /\
    BlockIORequest.sector req = sector.
Proof.
  intros Hdev Hsec Hnr Htid Hrwbs. unfold BlockIORequest.new_from_rq_issue.
  rewrite (getitem_Some _ _ _ Hdev), (getitem_Some _ _ _ Hsec),
    (getitem_Some _ _ _ Hnr), (getitem_Some _ _ _ Htid),
    (getint_Some _ _ _ Hrwbs).
  simpl. eexists. split; [reflexivity|].
  unfold BlockIORequest.operation, BlockIORequest.size. simpl.
  rewrite Zmod_even.
  repeat split.
  - intros ->. reflexivity.
  - rewrite <- Z.negb_even. intros He.
    destruct (Z.even rwbs); [discriminate He | reflexivity].
  - intros ->. reflexivity.
  - intros ->. reflexivity.
Qed.

Lemma rq_issue_parity_and_size_witness :
  (exists req,
      BlockIORequest.new_from_rq_issue (Sample.rq_issue 4) = Ok req /\
      BlockIORequest.operation req = IORequest.OP_READ /\
      BlockIORequest.size req = Some 4096) /\
  (exists req,
      BlockIORequest.new_from_rq_issue (Sample.rq_issue 5) = Ok req /\
      BlockIORequest.operation req = IORequest.OP_WRITE /\
      BlockIORequest.size req = Some 4096).
Proof.
  split.
  - destruct (rq_issue_parity_and_size (Sample.rq_issue 4)
                (VInt 8388608) (VInt 2048) (VInt 42) 8 4)
      as (req & Hn & Hev & _ & _ & _ & Hsz & _); try reflexivity.
    exists req. split; [exact Hn|]. split; [apply Hev; reflexivity | exact Hsz].
  - destruct (rq_issue_parity_and_size (Sample.rq_issue 5)
                (VInt 8388608) (VInt 2048) (VInt 42) 8 5)
      as (req & Hn & _ & Hod & _ & _ & Hsz & _); try reflexivity.
    exists req. split; [exact Hn|]. split; [apply Hod; reflexivity | exact Hsz].
Defined.

(** ** Duplicating a descriptor *)

Lemma FD_getattr_filename (f : FD.t) :
  FD.getattr f "filename" = Ok (FD.filename f).
Proof. reflexivity. Qed.

Lemma FD_getattr_fdtype (f : FD.t) :
  FD.getattr f "fdtype" = Ok (FD.fdtype f).
Proof. reflexivity. Qed.

(** An FD has no attribute [fd_type]: its type is bound as [fdtype]. *)
Lemma FD_getattr_fd_type (f : FD.t) :
  FD.getattr f "fd_type" = Err (AttributeError "fd_type").
Proof. reflexivity. Qed.

(** C5: with an untracked descriptor ([old_fd] is [None])
    [new_from_old_fd] returns an open request with filename "unknown" and
    fd_type unknown.  With a tracked descriptor, an instance of FD, it does
    not copy anything: the read of [old_fd.fd_type] raises
    [AttributeError], whatever the descriptor holds, because FD names that
    attribute [fdtype]. *)
Theorem new_from_old_fd_cases {common : Common} (event : Event)
    (tid : value) :
  (exists req,
      OpenIORequest.new_from_old_fd event tid None = Ok req /\
      OpenIORequest.filename req = VStr "unknown" /\
      OpenIORequest.fd_type req = VInt FDType.unknown) /\
  (forall old_fd : FD.t,
      OpenIORequest.new_from_old_fd event tid (Some old_fd)
      = Err (AttributeError "fd_type")).
Proof.
  split.
  - eexists. split; [reflexivity|]. split; reflexivity.
  - intros old_fd. unfold OpenIORequest.new_from_old_fd.
    rewrite FD_getattr_filename, FD_getattr_fd_type. reflexivity.
Qed.

(** The descriptor of "/tmp/a" is tracked, and duplicating it fails. *)
Example new_from_old_fd_used_fd :
  @OpenIORequest.new_from_old_fd Sample.common Sample.dup_entry (VInt 42)
    (Some Sample.used_fd)
  = Err (AttributeError "fd_type").
Proof. reflexivity. Qed.

(** ** Size at entry *)

Lemma syscall_init_size (begin_ts : Z) (size tid : value) (operation : Z)
    (syscall_name : string) :
  SyscallIORequest.size
    (SyscallIORequest.init begin_ts size tid operation syscall_name) = None.
Proof. reflexivity. Qed.

(** C1: the size read from the entry event is handed to the constructor of
    [SyscallIORequest], which passes [None] to the constructor of
    [IORequest] in its place.  The requests built from a splice with len
    4096, a sendfile64 with count 4096, a read with size key "count" and
    value 4096, and a sync_file_range with nbytes 4096 all have size
    unset. *)
Theorem entry_size_is_dropped :
  (forall (begin_ts : Z) (size tid : value) (operation : Z)
          (syscall_name : string),
      SyscallIORequest.size
        (SyscallIORequest.init begin_ts size tid operation syscall_name)
      = None) /\
  getitem Sample.splice_entry "len" = Ok (VInt 4096) /\
  (exists req,
      ReadWriteIORequest.new_from_splice Sample.splice_entry (VInt 42)
        = Ok req /\
      ReadWriteIORequest.size req = None) /\
  (exists req,
      ReadWriteIORequest.new_from_sendfile64 Sample.sendfile64_entry (VInt 42)
        = Ok req /\
      ReadWriteIORequest.size req = None) /\
  (exists req,
      @ReadWriteIORequest.new_from_fd_event Sample.common Sample.read_entry
        (VInt 42) (Some "count") = Ok req /\
      ReadWriteIORequest.size req = None) /\
  (exists req,
      SyncIORequest.new_from_sync_file_range Sample.sync_file_range_entry
        (VInt 42) = Ok req /\
      SyncIORequest.size req = None).
Proof.
  split; [exact syscall_init_size|].
  split; [reflexivity|].
  repeat split; eexists; (split; [vm_compute; reflexivity | reflexivity]).
Qed.

(** ** Duplicating an FD *)

Lemma new_from_fd_fields (f : FD.t) :
  FD.new_from_fd f =
  {| FD.filename := FD.filename f; FD.fd := FD.fd f;
     FD.family := FD.family f; FD.fdtype := FD.fdtype f;
     FD.parent := FD.parent f; FD.cloexec := FD.cloexec f;
     FD.net_read := 0; FD.net_write := 0;
     FD.disk_read := 0; FD.disk_write := 0;
     FD.unk_read := 0; FD.unk_write := 0;
     FD.read := 0; FD.write := 0;
     FD.iorequests := [] |}.
Proof. reflexivity. Qed.

Lemma alloc_fresh (s : gmap positive FD.t) (f : FD.t) :
  s !! (FD.alloc s f).1 = None.
Proof. unfold FD.alloc. simpl. apply not_elem_of_dom, is_fresh. Qed.

Lemma alloc_lookup (s : gmap positive FD.t) (f : FD.t) (r : positive) :
  (FD.alloc s f).2 !! r =
  if decide ((FD.alloc s f).1 = r) then Some f else s !! r.
Proof. unfold FD.alloc. simpl. apply lookup_insert. Qed.

(** C7: [new_from_fd] returns an FD whose filename, fd number, family,
    fdtype, parent and cloexec are those of the source, whose eight
    counters are zero and whose request history is empty, whatever the
    source has accumulated.  Duplicating one live source twice binds two
    new, distinct references, each to such a zeroed FD; the source is
    unchanged, and a later change of one duplicate is seen neither in the
    other nor in the source. *)
Theorem new_from_fd_copies_identity_only (s : gmap positive FD.t)
    (src : positive) (f : FD.t) :
  s !! src = Some f ->
  let d := FD.new_from_fd f in
  (FD.filename d = FD.filename f /\ FD.fd d = FD.fd f /\
   FD.family d = FD.family f /\ FD.fdtype d = FD.fdtype f /\
   FD.parent d = FD.parent f /\ FD.cloexec d = FD.cloexec f) /\
  (FD.net_read d = 0 /\ FD.net_write d = 0 /\
   FD.disk_read d = 0 /\ FD.disk_write d = 0 /\
   FD.unk_read d = 0 /\ FD.unk_write d = 0 /\
   FD.read d = 0 /\ FD.write d = 0) /\
  FD.iorequests d = [] /\
  exists r1 s1 r2 s2,
    FD.new_from_fd_at s src = Some (r1, s1) /\
    FD.new_from_fd_at s1 src = Some (r2, s2) /\
    r1 <> r2 /\ r1 <> src /\ r2 <> src /\
    s !! r1 = None /\ s1 !! r2 = None /\
    s2 !! r1 = Some d /\ s2 !! r2 = Some d /\ s2 !! src = Some f /\
    (forall g : FD.t,
        <[r1 := g]> s2 !! r2 = Some d /\ <[r1 := g]> s2 !! src = Some f).
Proof.
  intros Hsrc d.
  split; [repeat split|]. split; [repeat split|]. split; [reflexivity|].
  set (a1 := FD.alloc s d).
  assert (Hf1 : s !! a1.1 = None) by apply alloc_fresh.
  assert (Hn1 : a1.1 <> src) by (intros E; rewrite E, Hsrc in Hf1; discriminate).
  assert (Hs1src : a1.2 !! src = Some f).
  { unfold a1. rewrite alloc_lookup. destruct (decide _); [contradiction|assumption]. }
  assert (Hs1r1 : a1.2 !! a1.1 = Some d).
  { unfold a1. rewrite alloc_lookup. destruct (decide _); [reflexivity|contradiction]. }
  set (a2 := FD.alloc a1.2 d).
  assert (Hf2 : a1.2 !! a2.1 = None) by apply alloc_fresh.
  assert (Hn2 : a2.1 <> src) by (intros E; rewrite E, Hs1src in Hf2; discriminate).
  assert (Hn12 : a1.1 <> a2.1) by (intros E; rewrite <- E, Hs1r1 in Hf2; discriminate).
  exists a1.1, a1.2, a2.1, a2.2.
  split. { unfold FD.new_from_fd_at. rewrite Hsrc. reflexivity. }
  split. { unfold FD.new_from_fd_at. rewrite Hs1src. reflexivity. }
  repeat split; try assumption.
  - unfold a2. rewrite alloc_lookup.
    destruct (decide _) as [E|_]; [symmetry in E; contradiction | assumption].
  - unfold a2. rewrite alloc_lookup.
    destruct (decide _); [reflexivity | contradiction].
  - unfold a2. rewrite alloc_lookup.
    destruct (decide _); [contradiction | assumption].
  - rewrite lookup_insert_ne by assumption.
    unfold a2. rewrite alloc_lookup.
    destruct (decide _); [reflexivity | contradiction].
  - rewrite lookup_insert_ne by assumption.
    unfold a2. rewrite alloc_lookup.
    destruct (decide _); [contradiction | assumption].
Qed.

Lemma new_from_fd_copies_identity_only_witness :
  let d := FD.new_from_fd Sample.used_fd in
  FD.filename d = VStr "/tmp/a" /\ FD.fdtype d = VInt FDType.disk /\
  FD.disk_read d = 0 /\ FD.read d = 0 /\ FD.iorequests d = [] /\
  exists r1 s1 r2 s2,
    FD.new_from_fd_at {[ 1%positive := Sample.used_fd ]} 1%positive
      = Some (r1, s1) /\
    FD.new_from_fd_at s1 1%positive = Some (r2, s2) /\
    r1 <> r2 /\ s2 !! r1 = Some d /\ s2 !! r2 = Some d /\
    s2 !! 1%positive = Some Sample.used_fd.
Proof.
  intros d.
  destruct (new_from_fd_copies_identity_only
              {[ 1%positive := Sample.used_fd ]} 1%positive Sample.used_fd)
    as ((Hfn & _ & _ & Hty & _) & (_ & _ & Hdr & _ & _ & _ & Hr & _) & Hio
        & r1 & s1 & r2 & s2 & H1 & H2 & Hne & _ & _ & _ & _ & Hd1 & Hd2
        & Hsrc & _).
  - reflexivity.
  - split; [exact Hfn|]. split; [exact Hty|]. split; [exact Hdr|].
    split; [exact Hr|]. split; [exact Hio|].
    exists r1, s1, r2, s2. repeat split; assumption.
Defined.

(** ** Software interrupts *)

(** The two creation paths of [sv.py]: a raise binds raise_ts only, an
    entry binds begin_ts only. *)
Lemma softirq_creation_paths (ts vec : Z) (cpu_id : value) :
  SoftIRQ.new_from_softirq_raise (Sample.softirq_raise ts vec cpu_id)
    = Ok (SoftIRQ.init (VInt vec) cpu_id (Some ts) None) /\
  SoftIRQ.new_from_softirq_entry (Sample.softirq_entry ts vec cpu_id)
    = Ok (SoftIRQ.init (VInt vec) cpu_id None (Some ts)).
Proof. split; vm_compute; reflexivity. Qed.

(** C9: on a CPU with no pending softirq, a raise on vector 3 at
    timestamp 100 followed by an entry on vector 3 at timestamp 150
    leaves exactly one pending record for vector 3, with raise_ts 100 and
    begin_ts 150, and no record for any other vector. *)
Theorem softirq_raise_then_entry (cpu_id : value) :
  exists cpu1 cpu2 irq,
    SoftIRQTracker.process_softirq_raise (CPU.init cpu_id)
      (Sample.softirq_raise 100 3 cpu_id) = Ok cpu1 /\
    SoftIRQTracker.process_softirq_entry cpu1
      (Sample.softirq_entry 150 3 cpu_id) = Ok cpu2 /\
    CPU.current_softirqs cpu2 = {[ 3 := [irq] ]} /\
    SoftIRQTracker.pending cpu2 3 = [irq] /\
    SoftIRQ.id irq = VInt 3 /\
    SoftIRQ.raise_ts irq = Some 100 /\
    SoftIRQ.begin_ts irq = Some 150 /\
    SoftIRQ.end_ts irq = None.
Proof.
  eexists. eexists. eexists.
  split; [vm_compute; reflexivity|].
  split; [vm_compute; reflexivity|].
  split; [vm_compute; reflexivity|].
  repeat split.
Qed.


(** * Further properties of the module *)

(** ** Lookups that fail *)

Lemma getitem_None event k :
  fields event !! k = None -> getitem event k = Err (KeyError k).
Proof. unfold getitem. intros ->. reflexivity. Qed.

Lemma getint_None event k :
  fields event !! k = None -> getint event k = Err (KeyError k).
Proof. unfold getint. intros H. rewrite (getitem_None _ _ H). reflexivity. Qed.

Lemma getitem_Ok_iff event k v :
  getitem event k = Ok v <-> fields event !! k = Some v.
Proof.
  unfold getitem. destruct (fields event !! k); split; congruence.
Qed.

Lemma contains_true event k v :
  fields event !! k = Some v -> contains event k = true.
Proof.
  intros H. unfold contains. apply bool_decide_eq_true. rewrite H. eauto.
Qed.

Lemma contains_false event k :
  fields event !! k = None -> contains event k = false.
Proof.
  intros H. unfold contains. apply bool_decide_eq_false. rewrite H.
  intros [v Hv]. discriminate.
Qed.

(** ** The exit update, for every class of syscall request *)

(** With an integer [ret] the exit update of a syscall request of any
    class returns, and [exit_effect] describes its result. *)
Lemma request_update_effect (event : Event) (n : Z) (rq : SyscallRequest.t) :
  fields event !! "ret" = Some (VInt n) ->
  exists rq',
    SyscallRequest.update_from_exit rq event = Ok rq' /\
    SyscallRequest.exit_effect (timestamp event) n rq rq'.
Proof.
  intros Hret.
  destruct rq as [s|o|c|r|y]; unfold SyscallRequest.update_from_exit.
  - rewrite (syscall_update_from_exit_eq _ _ Hret). simpl.
    eexists. split; [reflexivity|].
    unfold SyscallRequest.exit_effect, SyscallRequest.base. simpl.
    destruct (n <? 0); simpl; repeat split.
  - unfold OpenIORequest.update_from_exit.
    rewrite (syscall_update_from_exit_eq _ _ Hret), (getint_Some _ _ _ Hret).
    simpl. destruct (0 <=? n) eqn:Hge; simpl;
      (eexists; split; [reflexivity|]);
      unfold SyscallRequest.exit_effect, SyscallRequest.base; simpl;
      rewrite ?Hge; destruct (n <? 0); simpl; repeat split.
  - unfold CloseIORequest.update_from_exit.
    rewrite (syscall_update_from_exit_eq _ _ Hret). simpl.
    eexists. split; [reflexivity|].
    unfold SyscallRequest.exit_effect, SyscallRequest.base. simpl.
    destruct (n <? 0); simpl; repeat split.
  - unfold ReadWriteIORequest.update_from_exit.
    rewrite (syscall_update_from_exit_eq _ _ Hret), (getint_Some _ _ _ Hret).
    simpl. unfold SyscallIORequest.size. simpl.
    destruct (0 <=? n) eqn:Hge; simpl;
      destruct (n <? 0) eqn:Hlt; simpl;
      destruct (IORequest.size (SyscallIORequest.base (ReadWriteIORequest.sys r)))
        eqn:Hs; simpl;
      (eexists; split; [reflexivity|]);
      unfold SyscallRequest.exit_effect, SyscallRequest.base; simpl;
      rewrite ?Hs, ?Hge, ?Hlt; repeat split.
  - unfold SyncIORequest.update_from_exit.
    rewrite (syscall_update_from_exit_eq _ _ Hret), (getint_Some _ _ _ Hret).
    simpl. unfold SyscallIORequest.size. simpl.
    destruct (0 <=? n) eqn:Hge; simpl;
      destruct (n <? 0) eqn:Hlt; simpl;
      destruct (IORequest.size (SyscallIORequest.base (SyncIORequest.sys y)))
        eqn:Hs; simpl;
      (eexists; split; [reflexivity|]);
      unfold SyscallRequest.exit_effect, SyscallRequest.base; simpl;
      rewrite ?Hs, ?Hge, ?Hlt; repeat split.
Qed.

Ltac exit_effect_in H :=
  destruct H as (Hcls & Hbegin & Htid & Hop & Hname & Hpa & Hpf & Hpw & Hwk
                 & Hend & Hdur & Herrno & Hfd & Hrs & Hsize).

(** X1: the exit update of a syscall request of any class returns a
    request of the same class and never changes begin_ts, tid, operation,
    syscall_name, the three page counters, the kswapd flag, or the
    attributes its subclass adds (filename, fd_type, family and cloexec of
    an open request, fd_in and fd_out of a read/write request); the fd of
    a request that is not an open request is kept as well. *)
Theorem exit_update_frame (event : Event) (n : Z) (rq : SyscallRequest.t) :
  fields event !! "ret" = Some (VInt n) ->
  exists rq',
    SyscallRequest.update_from_exit rq event = Ok rq' /\
    SyscallRequest.same_class_attributes rq rq' /\
    IORequest.begin_ts (SyscallRequest.base rq') =
      IORequest.begin_ts (SyscallRequest.base rq) /\
    IORequest.tid (SyscallRequest.base rq') =
      IORequest.tid (SyscallRequest.base rq) /\
    IORequest.operation (SyscallRequest.base rq') =
      IORequest.operation (SyscallRequest.base rq) /\
    SyscallIORequest.syscall_name (SyscallRequest.sys rq') =
      SyscallIORequest.syscall_name (SyscallRequest.sys rq) /\
    SyscallIORequest.pages_allocated (SyscallRequest.sys rq') =
      SyscallIORequest.pages_allocated (SyscallRequest.sys rq) /\
    SyscallIORequest.pages_freed (SyscallRequest.sys rq') =
      SyscallIORequest.pages_freed (SyscallRequest.sys rq) /\
    SyscallIORequest.pages_written (SyscallRequest.sys rq') =
      SyscallIORequest.pages_written (SyscallRequest.sys rq) /\
    SyscallIORequest.woke_kswapd (SyscallRequest.sys rq') =
      SyscallIORequest.woke_kswapd (SyscallRequest.sys rq) /\
    (SyscallRequest.is_open rq = false ->
       SyscallIORequest.fd (SyscallRequest.sys rq') =
       SyscallIORequest.fd (SyscallRequest.sys rq)).
Proof.
  intros Hret.
  destruct (request_update_effect _ _ rq Hret) as (rq' & Hu & He).
  exit_effect_in He. exists rq'. repeat (split; [assumption|]).
  intros Hno. rewrite Hfd, Hno. reflexivity.
Qed.

Lemma exit_update_frame_witness :
  exists rq',
    SyscallRequest.update_from_exit Sample.recvmsg_request Sample.exit_7
      = Ok rq' /\
    SyscallIORequest.syscall_name (SyscallRequest.sys rq') = "recvmsg" /\
    IORequest.tid (SyscallRequest.base rq') = VInt 42 /\
    SyscallIORequest.fd (SyscallRequest.sys rq') = VNone.
Proof.
  destruct (exit_update_frame Sample.exit_7 7 Sample.recvmsg_request)
    as (rq' & Hu & _ & _ & Htid & _ & Hname & _ & _ & _ & _ & Hfd).
  - reflexivity.
  - exists rq'. split; [exact Hu|]. split; [exact Hname|].
    split; [exact Htid|]. apply Hfd. reflexivity.
Defined.

(** X2: a request on which neither errno nor returned_size nor size is
    bound (nor fd, for an open request), as every constructor leaves it,
    comes out of one exit update with exactly one outcome recorded.  An open request has either errno or fd
    bound, never both and never neither; a read/write or sync request has
    either errno or returned_size bound, and its size is bound exactly when
    returned_size is. *)
Theorem exit_outcome_exclusive (event : Event) (n : Z)
    (rq : SyscallRequest.t) :
  fields event !! "ret" = Some (VInt n) ->
  IORequest.errno (SyscallRequest.base rq) = None ->
  (SyscallRequest.is_open rq = true ->
     SyscallIORequest.fd (SyscallRequest.sys rq) = VNone) ->
  SyscallIORequest.returned_size (SyscallRequest.sys rq) = None ->
  IORequest.size (SyscallRequest.base rq) = None ->
  exists rq',
    SyscallRequest.update_from_exit rq event = Ok rq' /\
    (IORequest.errno (SyscallRequest.base rq') <> None <-> n < 0) /\
    (SyscallRequest.is_open rq = true ->
       (SyscallIORequest.fd (SyscallRequest.sys rq') = VNone <->
        IORequest.errno (SyscallRequest.base rq') <> None)) /\
    (SyscallRequest.records_size rq = true ->
       (SyscallIORequest.returned_size (SyscallRequest.sys rq') = None <->
        IORequest.errno (SyscallRequest.base rq') <> None) /\
       IORequest.size (SyscallRequest.base rq') =
         SyscallIORequest.returned_size (SyscallRequest.sys rq')).
Proof.
  intros Hret He0 Hfd0 Hrs0 Hsz0.
  destruct (request_update_effect _ _ rq Hret) as (rq' & Hu & He).
  exit_effect_in He. exists rq'. split; [exact Hu|].
  rewrite Herrno, Hfd, Hrs, Hsize, He0, Hrs0, Hsz0.
  destruct (Z.ltb_spec n 0) as [Hlt|Hge].
  - assert ((0 <=? n) = false) as -> by lia.
    rewrite !andb_false_r. split; [split; [lia | congruence]|].
    split.
    + intros Hopen. rewrite (Hfd0 Hopen). split; congruence.
    + intros _. split; [split; congruence | reflexivity].
  - assert ((0 <=? n) = true) as -> by lia.
    rewrite !andb_true_r. split; [split; [congruence | lia]|].
    split; intros ->; [split; congruence|].
    split; [split; congruence | reflexivity].
Qed.

Lemma exit_outcome_exclusive_witness :
  exists rq',
    SyscallRequest.update_from_exit Sample.open_request Sample.exit_enoent
      = Ok rq' /\
    SyscallIORequest.fd (SyscallRequest.sys rq') = VNone /\
    IORequest.errno (SyscallRequest.base rq') <> None.
Proof.
  destruct (exit_outcome_exclusive Sample.exit_enoent (-2) Sample.open_request)
    as (rq' & Hu & Herr & Hopen & _); try reflexivity.
  exists rq'. split; [exact Hu|].
  assert (He : IORequest.errno (SyscallRequest.base rq') <> None)
    by (apply Herr; lia).
  split; [|exact He]. apply Hopen; [reflexivity | exact He].
Defined.

(** X3: two exit updates in a row.  The end timestamp and the duration are
    those of the second event; an errno bound by the first update is not
    cleared by a second one that succeeds; on a read/write or sync request
    without entry size, the size backfilled by the first successful update
    is kept while returned_size follows the second. *)
Theorem second_exit_update (e1 e2 : Event) (n1 n2 : Z)
    (rq : SyscallRequest.t) :
  fields e1 !! "ret" = Some (VInt n1) ->
  fields e2 !! "ret" = Some (VInt n2) ->
  exists rq1 rq2,
    SyscallRequest.update_from_exit rq e1 = Ok rq1 /\
    SyscallRequest.update_from_exit rq1 e2 = Ok rq2 /\
    IORequest.end_ts (SyscallRequest.base rq2) = Some (timestamp e2) /\
    IORequest.duration (SyscallRequest.base rq2) =
      Some (timestamp e2 - IORequest.begin_ts (SyscallRequest.base rq)) /\
    (n1 < 0 -> 0 <= n2 ->
       IORequest.errno (SyscallRequest.base rq2) = Some (- n1)) /\
    (SyscallRequest.records_size rq = true ->
     IORequest.size (SyscallRequest.base rq) = None ->
     0 <= n1 -> 0 <= n2 ->
       IORequest.size (SyscallRequest.base rq2) = Some n1 /\
       SyscallIORequest.returned_size (SyscallRequest.sys rq2) = Some n2).
Proof.
  intros H1 H2.
  destruct (request_update_effect _ _ rq H1) as (rq1 & Hu1 & E1).
  destruct (request_update_effect _ _ rq1 H2) as (rq2 & Hu2 & E2).
  exists rq1, rq2. split; [exact Hu1|]. split; [exact Hu2|].
  assert (Hrec : SyscallRequest.records_size rq1 = SyscallRequest.records_size rq).
  { destruct E1 as (Hcls & _). destruct rq, rq1; simpl in Hcls; tauto. }
  destruct E1 as (_ & Hb1 & _ & _ & _ & _ & _ & _ & _ & _ & _ & Herr1 & _
                  & Hrs1 & Hsz1).
  destruct E2 as (_ & Hb2 & _ & _ & _ & _ & _ & _ & _ & Hend2 & Hdur2 & Herr2
                  & _ & Hrs2 & Hsz2).
  split; [exact Hend2|]. split; [rewrite Hdur2, Hb1; reflexivity|]. split.
  - intros Hn1 Hn2. rewrite Herr2, Herr1.
    assert ((n2 <? 0) = false) as -> by lia.
    assert ((n1 <? 0) = true) as -> by lia. reflexivity.
  - intros Hr Hnone Hn1 Hn2.
    rewrite Hsz2, Hrs2, Hsz1, Hrec, Hr, Hnone.
    assert ((0 <=? n1) = true) as -> by lia.
    assert ((0 <=? n2) = true) as -> by lia.
    split; reflexivity.
Qed.

Lemma second_exit_update_witness :
  exists rq1 rq2,
    SyscallRequest.update_from_exit Sample.recvmsg_request Sample.exit_7
      = Ok rq1 /\
    SyscallRequest.update_from_exit rq1 Sample.exit_late = Ok rq2 /\
    IORequest.size (SyscallRequest.base rq2) = Some 7 /\
    SyscallIORequest.returned_size (SyscallRequest.sys rq2) = Some 100 /\
    IORequest.duration (SyscallRequest.base rq2) = Some 10.
Proof.
  destruct (second_exit_update Sample.exit_7 Sample.exit_late 7 100
              Sample.recvmsg_request)
    as (rq1 & rq2 & Hu1 & Hu2 & _ & Hdur & _ & Hsz); try reflexivity.
  exists rq1, rq2. split; [exact Hu1|]. split; [exact Hu2|].
  destruct Hsz as [Hs Hr]; try reflexivity; try lia.
  split; [exact Hs|]. split; [exact Hr|]. exact Hdur.
Defined.

(** X4: the exit update does not compare the two timestamps.  Whatever
    their order it returns with duration equal to the event's timestamp
    minus begin_ts, so the updated request is finalized exactly when the
    event is not earlier than the begin, and the duration is negative
    exactly when it is earlier. *)
Theorem exit_update_unordered (event : Event) (n : Z)
    (rq : SyscallRequest.t) :
  fields event !! "ret" = Some (VInt n) ->
  exists rq' d,
    SyscallRequest.update_from_exit rq event = Ok rq' /\
    IORequest.duration (SyscallRequest.base rq') = Some d /\
    d = timestamp event - IORequest.begin_ts (SyscallRequest.base rq) /\
    (d < 0 <-> timestamp event < IORequest.begin_ts (SyscallRequest.base rq)) /\
    (IORequest.finalized (SyscallRequest.base rq') <->
     IORequest.begin_ts (SyscallRequest.base rq) <= timestamp event).
Proof.
  intros Hret.
  destruct (request_update_effect _ _ rq Hret) as (rq' & Hu & He).
  exit_effect_in He. eexists. eexists. split; [exact Hu|].
  split; [exact Hdur|]. split; [reflexivity|]. split; [lia|].
  unfold IORequest.finalized. rewrite Hend, Hbegin. split.
  - intros (e & He & Hle & _). injection He as <-. exact Hle.
  - intros Hle. exists (timestamp event). rewrite Hdur. auto.
Qed.

Lemma exit_update_unordered_witness :
  exists rq',
    SyscallRequest.update_from_exit
      (SyscallRequest.Close (CloseIORequest.init 20 (VInt 42) (VInt 3)))
      Sample.exit_7 = Ok rq' /\
    IORequest.duration (SyscallRequest.base rq') = Some (-8) /\
    ~ IORequest.finalized (SyscallRequest.base rq').
Proof.
  destruct (exit_update_unordered Sample.exit_7 7
              (SyscallRequest.Close (CloseIORequest.init 20 (VInt 42) (VInt 3))))
    as (rq' & d & Hu & Hd & -> & _ & Hfin).
  - reflexivity.
  - exists rq'. split; [exact Hu|]. split; [exact Hd|].
    intros Hf. apply Hfin in Hf. simpl in Hf. lia.
Defined.

(** X5: an exit event without a [ret] field.  The exit update of a request
    of any class and [SyscallEvent.process_exit] both raise
    [KeyError('ret')].  [process_exit] returns exactly when the field is
    present and stores it as it is; for a [ret] that is a string it returns
    while the exit update of a request raises [TypeError]. *)
Theorem exit_without_ret (event : Event) (rq : SyscallRequest.t)
    (se : SyscallEvent.t) :
  (fields event !! "ret" = None ->
     SyscallRequest.update_from_exit rq event = Err (KeyError "ret") /\
     SyscallEvent.process_exit se event = Err (KeyError "ret")) /\
  (forall v, fields event !! "ret" = Some v ->
     exists se', SyscallEvent.process_exit se event = Ok se' /\
                 SyscallEvent.ret se' = v) /\
  ((exists se', SyscallEvent.process_exit se event = Ok se') <->
   is_Some (fields event !! "ret")) /\
  (forall s, fields event !! "ret" = Some (VStr s) ->
     SyscallRequest.update_from_exit rq event = Err TypeError).
Proof.
  assert (Hsys_none : fields event !! "ret" = None ->
            forall s, SyscallIORequest.update_from_exit s event
                      = Err (KeyError "ret")).
  { intros Hn s. unfold SyscallIORequest.update_from_exit.
    rewrite (getint_None _ _ Hn). reflexivity. }
  assert (Hsys_str : forall str, fields event !! "ret" = Some (VStr str) ->
            forall s, SyscallIORequest.update_from_exit s event
                      = Err TypeError).
  { intros str Hs s. unfold SyscallIORequest.update_from_exit, getint.
    rewrite (getitem_Some _ _ _ Hs). reflexivity. }
  split; [|split; [|split]].
  - intros Hn. split.
    + destruct rq; simpl;
        unfold OpenIORequest.update_from_exit, CloseIORequest.update_from_exit,
          ReadWriteIORequest.update_from_exit, SyncIORequest.update_from_exit;
        rewrite (Hsys_none Hn); reflexivity.
    + unfold SyscallEvent.process_exit. rewrite (getitem_None _ _ Hn).
      reflexivity.
  - intros v Hv. unfold SyscallEvent.process_exit.
    rewrite (getitem_Some _ _ _ Hv). simpl. eexists. split; reflexivity.
  - unfold SyscallEvent.process_exit, getitem.
    destruct (fields event !! "ret") as [v|]; simpl; split.
    + eauto.
    + eauto.
    + intros [se' H]. discriminate.
    + intros [v H]. discriminate.
  - intros str Hs.
    destruct rq; simpl;
      unfold OpenIORequest.update_from_exit, CloseIORequest.update_from_exit,
        ReadWriteIORequest.update_from_exit, SyncIORequest.update_from_exit;
      rewrite (Hsys_str _ Hs); reflexivity.
Qed.

Lemma exit_without_ret_witness :
  SyscallRequest.update_from_exit Sample.open_request Sample.exit_no_ret
    = Err (KeyError "ret") /\
  SyscallRequest.update_from_exit Sample.open_request Sample.exit_str
    = Err TypeError /\
  exists se',
    SyscallEvent.process_exit (SyscallEvent.init "open" 10) Sample.exit_str
      = Ok se' /\
    SyscallEvent.ret se' = VStr "EAGAIN".
Proof.
  destruct (exit_without_ret Sample.exit_no_ret Sample.open_request
              (SyscallEvent.init "open" 10)) as (Hnone & _).
  destruct (exit_without_ret Sample.exit_str Sample.open_request
              (SyscallEvent.init "open" 10)) as (_ & Hstore & _ & Hstr).
  split; [apply Hnone; reflexivity|].
  split; [apply (Hstr "EAGAIN"); reflexivity|].
  apply Hstore. reflexivity.
Defined.

(** X6: a syscall event and the I/O request attached to it, begun at the
    same timestamp and closed with the same exit event, agree on end_ts and
    on duration; the syscall event keeps its name and begin_ts and stores
    the return value. *)
Theorem syscall_event_agrees_with_request (event : Event) (n : Z)
    (se : SyscallEvent.t) (rq : SyscallRequest.t) :
  fields event !! "ret" = Some (VInt n) ->
  SyscallEvent.begin_ts se = IORequest.begin_ts (SyscallRequest.base rq) ->
  exists se' rq',
    SyscallEvent.process_exit se event = Ok se' /\
    SyscallRequest.update_from_exit rq event = Ok rq' /\
    SyscallEvent.end_ts se' = IORequest.end_ts (SyscallRequest.base rq') /\
    SyscallEvent.duration se' =
      IORequest.duration (SyscallRequest.base rq') /\
    SyscallEvent.ret se' = VInt n /\
    SyscallEvent.name se' = SyscallEvent.name se /\
    SyscallEvent.begin_ts se' = SyscallEvent.begin_ts se.
Proof.
  intros Hret Hb.
  destruct (request_update_effect _ _ rq Hret) as (rq' & Hu & He).
  exit_effect_in He.
  unfold SyscallEvent.process_exit. rewrite (getitem_Some _ _ _ Hret). simpl.
  eexists. exists rq'. split; [reflexivity|]. split; [exact Hu|]. simpl.
  rewrite Hend, Hdur, Hb. repeat split.
Qed.

Lemma syscall_event_agrees_with_request_witness :
  exists se' rq',
    SyscallEvent.process_exit
      (@SyscallEvent.new_from_entry Sample.common Sample.recvmsg_entry)
      Sample.exit_7 = Ok se' /\
    SyscallRequest.update_from_exit Sample.recvmsg_request Sample.exit_7
      = Ok rq' /\
    SyscallEvent.duration se' = IORequest.duration (SyscallRequest.base rq') /\
    SyscallEvent.duration se' = Some 2.
Proof.
  destruct (syscall_event_agrees_with_request Sample.exit_7 7
              (@SyscallEvent.new_from_entry Sample.common Sample.recvmsg_entry)
              Sample.recvmsg_request)
    as (se' & rq' & Hp & Hu & _ & Hd & _); try reflexivity.
  exists se', rq'. split; [exact Hp|]. split; [exact Hu|].
  split; [exact Hd|].
  unfold SyscallEvent.process_exit in Hp. vm_compute in Hp.
  injection Hp as <-. reflexivity.
Defined.

(** ** The tables of syscall names *)

Lemma io_syscalls_NoDup : NoDup SyscallConsts.IO_SYSCALLS.
Proof. apply (bool_decide_unpack _). vm_compute. exact I. Qed.

Lemma read_not_write (n : string) :
  n ∈ SyscallConsts.READ_SYSCALLS -> n ∈ SyscallConsts.WRITE_SYSCALLS -> False.
Proof.
  intros Hr Hw. pose proof io_syscalls_NoDup as Hnd.
  unfold SyscallConsts.IO_SYSCALLS in Hnd.
  apply NoDup_app in Hnd as (_ & _ & Hnd).
  apply NoDup_app in Hnd as (_ & _ & Hnd).
  apply NoDup_app in Hnd as (_ & Hdis & _).
  apply (Hdis n Hr). rewrite elem_of_app. auto.
Qed.

Lemma io_syscalls_elem (n : string) :
  n ∈ SyscallConsts.IO_SYSCALLS <->
  n ∈ SyscallConsts.OPEN_SYSCALLS \/ n ∈ SyscallConsts.CLOSE_SYSCALLS \/
  n ∈ SyscallConsts.READ_SYSCALLS \/ n ∈ SyscallConsts.WRITE_SYSCALLS \/
  n ∈ SyscallConsts.SYNC_SYSCALLS.
Proof.
  unfold SyscallConsts.IO_SYSCALLS. rewrite !elem_of_app. tauto.
Qed.

(** X7: no syscall name occurs twice in [IO_SYSCALLS]: the open, close,
    read, write and sync tables are pairwise disjoint, and so are the three
    tables of open syscalls.  A name is in [IO_SYSCALLS] exactly when it is
    in one of the five tables. *)
Theorem io_syscalls_disjoint :
  NoDup SyscallConsts.IO_SYSCALLS /\
  (forall n, n ∈ SyscallConsts.OPEN_SYSCALLS ->
     (n ∉ SyscallConsts.CLOSE_SYSCALLS) /\ (n ∉ SyscallConsts.READ_SYSCALLS) /\
     (n ∉ SyscallConsts.WRITE_SYSCALLS) /\ (n ∉ SyscallConsts.SYNC_SYSCALLS)) /\
  (forall n, n ∈ SyscallConsts.CLOSE_SYSCALLS ->
     (n ∉ SyscallConsts.READ_SYSCALLS) /\
     (n ∉ SyscallConsts.WRITE_SYSCALLS) /\ (n ∉ SyscallConsts.SYNC_SYSCALLS)) /\
  (forall n, n ∈ SyscallConsts.READ_SYSCALLS ->
     (n ∉ SyscallConsts.WRITE_SYSCALLS) /\ (n ∉ SyscallConsts.SYNC_SYSCALLS)) /\
  (forall n, n ∈ SyscallConsts.WRITE_SYSCALLS ->
     (n ∉ SyscallConsts.SYNC_SYSCALLS)) /\
  (forall n, n ∈ SyscallConsts.DISK_OPEN_SYSCALLS ->
     (n ∉ SyscallConsts.NET_OPEN_SYSCALLS) /\
     (n ∉ SyscallConsts.DUP_OPEN_SYSCALLS)) /\
  (forall n, n ∈ SyscallConsts.NET_OPEN_SYSCALLS ->
     (n ∉ SyscallConsts.DUP_OPEN_SYSCALLS)) /\
  (forall n, n ∈ SyscallConsts.IO_SYSCALLS <->
     n ∈ SyscallConsts.OPEN_SYSCALLS \/ n ∈ SyscallConsts.CLOSE_SYSCALLS \/
     n ∈ SyscallConsts.READ_SYSCALLS \/ n ∈ SyscallConsts.WRITE_SYSCALLS \/
     n ∈ SyscallConsts.SYNC_SYSCALLS).
Proof.
  pose proof io_syscalls_NoDup as Hnd.
  split; [exact Hnd|].
  unfold SyscallConsts.IO_SYSCALLS in *.
  apply NoDup_app in Hnd as (Hopen & Ho & Hnd).
  apply NoDup_app in Hnd as (_ & Hc & Hnd).
  apply NoDup_app in Hnd as (_ & Hr & Hnd).
  apply NoDup_app in Hnd as (_ & Hw & _).
  unfold SyscallConsts.OPEN_SYSCALLS in Hopen.
  apply NoDup_app in Hopen as (_ & Hd & Hopen).
  apply NoDup_app in Hopen as (_ & Hn & _).
  split.
  { intros n H. repeat split; intros H'; apply (Ho n H);
      rewrite !elem_of_app; auto. }
  split.
  { intros n H. repeat split; intros H'; apply (Hc n H);
      rewrite !elem_of_app; auto. }
  split.
  { intros n H. repeat split; intros H'; apply (Hr n H);
      rewrite !elem_of_app; auto. }
  split; [exact Hw|].
  split.
  { intros n H. repeat split; intros H'; apply (Hd n H);
      rewrite !elem_of_app; auto. }
  split; [exact Hn|].
  exact io_syscalls_elem.
Qed.

(** ** Read and write requests on one descriptor *)

(** X8: [new_from_fd_event] classifies by membership of the syscall name
    in [READ_SYSCALLS] alone: a name of that table gives a read, every
    other name gives a write, whether it is in [WRITE_SYSCALLS] or in no
    table at all.  The request carries the event's fd and the syscall
    name, and neither fd_in nor fd_out. *)
Theorem fd_event_classification {common : Common} (event : Event)
    (tid fd : value) (size_key : option string) :
  fields event !! "fd" = Some fd ->
  (forall k, size_key = Some k -> is_Some (fields event !! k)) ->
  exists req,
    ReadWriteIORequest.new_from_fd_event event tid size_key = Ok req /\
    let op := IORequest.operation
                (SyscallIORequest.base (ReadWriteIORequest.sys req)) in
    (get_syscall_name event ∈ SyscallConsts.READ_SYSCALLS ->
       op = IORequest.OP_READ) /\
    (get_syscall_name event ∉ SyscallConsts.READ_SYSCALLS ->
       op = IORequest.OP_WRITE) /\
    (get_syscall_name event ∈ SyscallConsts.WRITE_SYSCALLS ->
       op = IORequest.OP_WRITE) /\
    (get_syscall_name event ∉ SyscallConsts.IO_SYSCALLS ->
       op = IORequest.OP_WRITE) /\
    SyscallIORequest.syscall_name (ReadWriteIORequest.sys req)
      = get_syscall_name event /\
    SyscallIORequest.fd (ReadWriteIORequest.sys req) = fd /\
    ReadWriteIORequest.fd_in req = VNone /\
    ReadWriteIORequest.fd_out req = VNone /\
    IORequest.begin_ts (SyscallIORequest.base (ReadWriteIORequest.sys req))
      = timestamp event.
Proof.
  intros Hfd Hkey. unfold ReadWriteIORequest.new_from_fd_event.
  assert (Hsize : exists v,
             match size_key with
             | Some k => getitem event k
             | None => Ok VNone
             end = Ok v).
  { destruct size_key as [k|]; [|eauto].
    destruct (Hkey k eq_refl) as [v Hv]. exists v. apply getitem_Some, Hv. }
  destruct Hsize as [v ->]. simpl. rewrite (getitem_Some _ _ _ Hfd). simpl.
  eexists. split; [reflexivity|]. simpl.
  case_bool_decide as Hin; repeat split; try reflexivity.
  - intros Hnot. contradiction.
  - intros Hw. destruct (read_not_write _ Hin Hw).
  - intros Hnot. exfalso. apply Hnot, io_syscalls_elem. auto.
  - intros Hr. contradiction.
Qed.

Lemma fd_event_classification_witness :
  (exists req,
      @ReadWriteIORequest.new_from_fd_event Sample.common Sample.read_entry
        (VInt 42) (Some "count") = Ok req /\
      IORequest.operation (SyscallIORequest.base (ReadWriteIORequest.sys req))
        = IORequest.OP_READ) /\
  (exists req,
      @ReadWriteIORequest.new_from_fd_event Sample.common Sample.ioctl_entry
        (VInt 42) None = Ok req /\
      IORequest.operation (SyscallIORequest.base (ReadWriteIORequest.sys req))
        = IORequest.OP_WRITE).
Proof.
  split.
  - destruct (@fd_event_classification Sample.common Sample.read_entry
                (VInt 42) (VInt 3) (Some "count"))
      as (req & Hn & Hr & _).
    + reflexivity.
    + intros k [= <-]. eexists. reflexivity.
    + exists req. split; [exact Hn|]. apply Hr.
      apply (bool_decide_unpack _). vm_compute. exact I.
  - destruct (@fd_event_classification Sample.common Sample.ioctl_entry
                (VInt 42) (VInt 3) None)
      as (req & Hn & _ & _ & _ & Hio & _).
    + reflexivity.
    + intros k [=].
    + exists req. split; [exact Hn|]. apply Hio.
      apply (bool_decide_unpack _). vm_compute. exact I.
Defined.

(** ** Fields a constructor needs *)

Ltac lookup_field event k :=
  let H := fresh "Hk" in
  let v := fresh "v" in
  destruct (fields event !! k) as [v|] eqn:H;
  [ rewrite ?(contains_true _ _ _ H), ?(getitem_Some _ _ _ H)
  | rewrite ?(contains_false _ _ H), ?(getitem_None _ _ H) ];
  simpl.

Ltac lookup_all event :=
  repeat match goal with
         | |- context [contains event ?k] => lookup_field event k
         end.

Ltac lookup_done :=
  simpl; first [ reflexivity | eexists; reflexivity ].

(** X9: the constructors that only read fields.  Each raises [KeyError]
    for the first field, in the order in which it reads them, that the
    entry event lacks, and returns for every event that carries them all,
    whatever their values.  In particular a splice, sendfile64, read/write
    or sync_file_range event must carry its size field for the request to
    be built. *)
Theorem lookup_constructors_required_fields {common : Common} (tid : value) :
  requires_fields (fun event => ReadWriteIORequest.new_from_splice event tid)
    ["len"; "fd_in"; "fd_out"] /\
  requires_fields
    (fun event => ReadWriteIORequest.new_from_sendfile64 event tid)
    ["count"; "in_fd"; "out_fd"] /\
  (forall k,
      requires_fields
        (fun event => ReadWriteIORequest.new_from_fd_event event tid (Some k))
        [k; "fd"]) /\
  requires_fields
    (fun event => ReadWriteIORequest.new_from_fd_event event tid None)
    ["fd"] /\
  requires_fields (fun event => SyncIORequest.new_from_fsync event tid)
    ["fd"] /\
  requires_fields
    (fun event => SyncIORequest.new_from_sync_file_range event tid)
    ["nbytes"; "fd"] /\
  requires_fields HardIRQ.new_from_irq_handler_entry ["irq"; "cpu_id"] /\
  requires_fields SoftIRQ.new_from_softirq_raise ["vec"; "cpu_id"] /\
  requires_fields SoftIRQ.new_from_softirq_entry ["vec"; "cpu_id"].
Proof.
  unfold requires_fields.
  repeat apply conj; intros; simpl;
    match goal with ev : Event |- _ => rename ev into event end.
  - unfold ReadWriteIORequest.new_from_splice.
    lookup_all event; lookup_done.
  - unfold ReadWriteIORequest.new_from_sendfile64.
    lookup_all event; lookup_done.
  - unfold ReadWriteIORequest.new_from_fd_event.
    lookup_all event; lookup_done.
  - unfold ReadWriteIORequest.new_from_fd_event.
    lookup_all event; lookup_done.
  - unfold SyncIORequest.new_from_fsync.
    lookup_all event; lookup_done.
  - unfold SyncIORequest.new_from_sync_file_range.
    lookup_all event; lookup_done.
  - unfold HardIRQ.new_from_irq_handler_entry.
    lookup_all event; lookup_done.
  - unfold SoftIRQ.new_from_softirq_raise.
    lookup_all event; lookup_done.
  - unfold SoftIRQ.new_from_softirq_entry.
    lookup_all event; lookup_done.
Qed.


(** ** Opening a socket *)

(** X11: [new_from_accept] on an event whose family is AF_INET names the
    request after the peer: the filename is the rendered address, a colon
    and the port in decimal.  The request is a network open request, and
    two ports give two different filenames for the same address. *)
Theorem accept_inet_filename {common : Common}
    (get_v4_addr_str : value -> result string) (event : Event)
    (tid v4addr : value) (addr : string) (sport : Z) :
  fields event !! "family" = Some (VInt AF_INET) ->
  fields event !! "v4addr" = Some v4addr ->
  get_v4_addr_str v4addr = Ok addr ->
  fields event !! "sport" = Some (VInt sport) ->
  exists req,
    OpenIORequest.new_from_accept get_v4_addr_str event tid = Ok req /\
    OpenIORequest.filename req = VStr (addr +:+ ":" +:+ pretty sport) /\
    OpenIORequest.fd_type req = VInt FDType.net /\
    OpenIORequest.family req = VInt AF_INET /\
    IORequest.operation (SyscallIORequest.base (OpenIORequest.sys req))
      = IORequest.OP_OPEN /\
    SyscallIORequest.fd (OpenIORequest.sys req) = VNone /\
    (forall sport', addr +:+ ":" +:+ pretty sport
                    = addr +:+ ":" +:+ pretty sport' -> sport = sport').
Proof.
  intros Hfam Haddr Hstr Hport. unfold OpenIORequest.new_from_accept.
  rewrite (contains_true _ _ _ Hfam), (getitem_Some _ _ _ Hfam). simpl.
  rewrite (getitem_Some _ _ _ Haddr). simpl. rewrite Hstr. simpl.
  rewrite (getitem_Some _ _ _ Hport). simpl.
  eexists. split; [reflexivity|]. repeat split.
  intros sport' Heq.
  apply (inj (String.append addr)) in Heq.
  apply (inj (String.append ":")) in Heq.
  apply (inj pretty) in Heq. exact Heq.
Qed.

Lemma accept_inet_filename_witness :
  exists req,
    @OpenIORequest.new_from_accept Sample.common Sample.v4_addr_str
      Sample.accept_entry (VInt 42) = Ok req /\
    OpenIORequest.filename req = VStr "127.0.0.1:80" /\
    OpenIORequest.fd_type req = VInt FDType.net.
Proof.
  destruct (@accept_inet_filename Sample.common Sample.v4_addr_str
              Sample.accept_entry (VInt 42) (VInt 2130706433) "127.0.0.1" 80)
    as (req & Hn & Hf & Ht & _); try reflexivity.
  exists req. split; [exact Hn|]. split; [exact Hf | exact Ht].
Defined.

(** X12: the socket constructors never fail on the optional fields.
    [new_from_socket] returns for every event: a network open request
    named "socket" whose family is the event's family when it has one and
    [None] otherwise.  [new_from_accept] returns a request with filename
    "socket" for every event without a family or with a family other than
    AF_INET, and then reads neither v4addr nor sport. *)
Theorem socket_requests_defaults {common : Common}
    (get_v4_addr_str : value -> result string) (event : Event)
    (tid : value) :
  (exists req,
      OpenIORequest.new_from_socket event tid = Ok req /\
      OpenIORequest.filename req = VStr "socket" /\
      OpenIORequest.fd_type req = VInt FDType.net /\
      SyscallIORequest.syscall_name (OpenIORequest.sys req) = "socket" /\
      OpenIORequest.family req = default VNone (fields event !! "family")) /\
  ((forall v, fields event !! "family" = Some v -> eq_int v AF_INET = false) ->
   exists req,
      OpenIORequest.new_from_accept get_v4_addr_str event tid = Ok req /\
      OpenIORequest.filename req = VStr "socket" /\
      OpenIORequest.fd_type req = VInt FDType.net /\
      SyscallIORequest.syscall_name (OpenIORequest.sys req)
        = get_syscall_name event /\
      OpenIORequest.family req = default VNone (fields event !! "family")).
Proof.
  split.
  - unfold OpenIORequest.new_from_socket.
    destruct (fields event !! "family") as [v|] eqn:Hf.
    + rewrite (contains_true _ _ _ Hf), (getitem_Some _ _ _ Hf). simpl.
      eexists. split; [reflexivity|]. repeat split.
    + rewrite (contains_false _ _ Hf).
      eexists. split; [reflexivity|]. repeat split.
  - intros Hne. unfold OpenIORequest.new_from_accept.
    destruct (fields event !! "family") as [v|] eqn:Hf.
    + rewrite (contains_true _ _ _ Hf), (getitem_Some _ _ _ Hf). simpl.
      rewrite (Hne v eq_refl).
      eexists. split; [reflexivity|]. repeat split.
    + rewrite (contains_false _ _ Hf).
      eexists. split; [reflexivity|]. repeat split.
Qed.

Lemma socket_requests_defaults_witness :
  exists req,
    @OpenIORequest.new_from_accept Sample.common Sample.v4_addr_str
      Sample.accept_unix_entry (VInt 42) = Ok req /\
    OpenIORequest.filename req = VStr "socket" /\
    OpenIORequest.family req = VInt AF_UNIX.
Proof.
  destruct (@socket_requests_defaults Sample.common Sample.v4_addr_str
              Sample.accept_unix_entry (VInt 42)) as [_ Hacc].
  destruct Hacc as (req & Hn & Hf & _ & _ & Hfam).
  - intros v Hv. vm_compute in Hv. injection Hv as <-. reflexivity.
  - exists req. split; [exact Hn|]. split; [exact Hf | exact Hfam].
Defined.

(** ** Opening a file: the close-on-exec flag *)

(** X13: the request built by [new_from_disk_open] has cloexec set exactly
    when every bit of O_CLOEXEC is set in the event's flags; when O_CLOEXEC
    is the single bit [k], exactly when bit [k] of the flags is set.  It is
    a disk open request with the event's filename, and fd, errno, size and
    family are unset. *)
Theorem disk_open_cloexec_iff {common : Common} (event : Event)
    (tid filename : value) (flags : Z) :
  fields event !! "filename" = Some filename ->
  fields event !! "flags" = Some (VInt flags) ->
  exists req,
    OpenIORequest.new_from_disk_open event tid = Ok req /\
    (OpenIORequest.cloexec req = true <->
     Z.land flags O_CLOEXEC = O_CLOEXEC) /\
    (forall k, 0 <= k -> O_CLOEXEC = 2 ^ k ->
       OpenIORequest.cloexec req = Z.testbit flags k) /\
    OpenIORequest.filename req = filename /\
    OpenIORequest.fd_type req = VInt FDType.disk /\
    OpenIORequest.family req = VNone /\
    SyscallIORequest.fd (OpenIORequest.sys req) = VNone /\
    SyscallIORequest.errno (OpenIORequest.sys req) = None /\
    SyscallIORequest.size (OpenIORequest.sys req) = None /\
    IORequest.operation (SyscallIORequest.base (OpenIORequest.sys req))
      = IORequest.OP_OPEN.
Proof.
  intros Hfile Hflags.
  rewrite (new_from_disk_open_eq _ _ _ _ Hfile Hflags).
  eexists. split; [reflexivity|]. simpl.
  split; [apply Z.eqb_eq|]. split; [|repeat split].
  intros k Hk ->.
  destruct (Z.testbit flags k) eqn:Hbit.
  - apply Z.eqb_eq. apply Z.bits_inj'. intros i Hi.
    rewrite Z.land_spec, Z.pow2_bits_eqb by assumption.
    destruct (Z.eqb_spec k i) as [<-|Hne].
    + rewrite Hbit. reflexivity.
    + apply andb_false_r.
  - apply Z.eqb_neq. intros Heq.
    assert (Hb : Z.testbit (Z.land flags (2 ^ k)) k = Z.testbit (2 ^ k) k)
      by (rewrite Heq; reflexivity).
    rewrite Z.land_spec, Hbit, Z.pow2_bits_true in Hb by assumption.
    discriminate Hb.
Qed.

Lemma disk_open_cloexec_iff_witness :
  exists req,
    @OpenIORequest.new_from_disk_open Sample.common Sample.open_entry (VInt 42)
      = Ok req /\
    OpenIORequest.cloexec req = Z.testbit 524289 19 /\
    OpenIORequest.cloexec req = true.
Proof.
  destruct (@disk_open_cloexec_iff Sample.common Sample.open_entry (VInt 42)
              (VStr "/tmp/a") 524289)
    as (req & Hn & Hiff & Hbit & _); try reflexivity.
  exists req. split; [exact Hn|]. split.
  - apply Hbit; [lia | reflexivity].
  - apply Hiff. reflexivity.
Defined.

(** ** The life of a block request *)

(** X14: a block request issued and then completed.  The duration is the
    completion timestamp minus the issue timestamp; the completion keeps
    device, sector, sector count, size, operation and tid; the operation is
    a read or a write and nothing else; the size is a multiple of the
    sector size with the sign of the sector count; errno stays unset, as a
    block request has no way to fail. *)
Theorem rq_issue_then_complete (issue complete : Event)
    (dev sector tid : value) (nr_sector rwbs : Z) :
  fields issue !! "dev" = Some dev ->
  fields issue !! "sector" = Some sector ->
  fields issue !! "nr_sector" = Some (VInt nr_sector) ->
  fields issue !! "tid" = Some tid ->
  fields issue !! "rwbs" = Some (VInt rwbs) ->
  exists req,
    BlockIORequest.new_from_rq_issue issue = Ok req /\
    let req' := BlockIORequest.update_from_rq_complete req complete in
    IORequest.duration (BlockIORequest.base req')
      = Some (timestamp complete - timestamp issue) /\
    IORequest.end_ts (BlockIORequest.base req') = Some (timestamp complete) /\
    BlockIORequest.dev req' = dev /\
    BlockIORequest.sector req' = sector /\
    BlockIORequest.nr_sector req' = VInt nr_sector /\
    IORequest.tid (BlockIORequest.base req') = tid /\
    BlockIORequest.size req' = BlockIORequest.size req /\
    BlockIORequest.operation req' = BlockIORequest.operation req /\
    (BlockIORequest.operation req' = IORequest.OP_READ \/
     BlockIORequest.operation req' = IORequest.OP_WRITE) /\
    (exists sz, BlockIORequest.size req' = Some sz /\
                (BlockIORequest.SECTOR_SIZE | sz) /\
                (0 <= sz <-> 0 <= nr_sector)) /\
    IORequest.errno (BlockIORequest.base req') = None.
Proof.
  intros Hdev Hsec Hnr Htid Hrwbs. unfold BlockIORequest.new_from_rq_issue.
  rewrite (getitem_Some _ _ _ Hdev), (getitem_Some _ _ _ Hsec),
    (getitem_Some _ _ _ Hnr), (getitem_Some _ _ _ Htid),
    (getint_Some _ _ _ Hrwbs).
  simpl. eexists. split; [reflexivity|].
  unfold BlockIORequest.operation, BlockIORequest.size. simpl.
  repeat split.
  - destruct (rwbs mod 2 =? 0); auto.
  - exists (nr_sector * BlockIORequest.SECTOR_SIZE).
    split; [reflexivity|]. split.
    + exists nr_sector. reflexivity.
    + unfold BlockIORequest.SECTOR_SIZE. lia.
Qed.

Lemma rq_issue_then_complete_witness :
  exists req,
    BlockIORequest.new_from_rq_issue (Sample.rq_issue 5) = Ok req /\
    IORequest.duration
      (BlockIORequest.base
         (BlockIORequest.update_from_rq_complete req Sample.rq_complete))
      = Some 5.
Proof.
  destruct (rq_issue_then_complete (Sample.rq_issue 5) Sample.rq_complete
              (VInt 8388608) (VInt 2048) (VInt 42) 8 5)
    as (req & Hn & Hd & _); try reflexivity.
  exists req. split; [exact Hn | exact Hd].
Defined.

(** X15: completing a block request again replaces the earlier completion:
    two completions in a row leave the request as the second alone would,
    and completing twice with the same event is the same as once. *)
Theorem rq_complete_last_wins (req : BlockIORequest.t) (e1 e2 : Event) :
  BlockIORequest.update_from_rq_complete
    (BlockIORequest.update_from_rq_complete req e1) e2
  = BlockIORequest.update_from_rq_complete req e2 /\
  BlockIORequest.update_from_rq_complete
    (BlockIORequest.update_from_rq_complete req e1) e1
  = BlockIORequest.update_from_rq_complete req e1.
Proof.
  destruct req as [[b e d sz op t er] dv sc nr].
  split; reflexivity.
Qed.

(** ** Resetting and duplicating an FD *)

(** X16: duplicating an FD is resetting the counters of a copy:
    [new_from_fd] and [init_counts] give the same FD.  Both are
    idempotent, a duplicate of a duplicate is the duplicate, and a
    new FD is its own duplicate. *)
Theorem new_from_fd_is_init_counts (f : FD.t) :
  FD.new_from_fd f = FD.init_counts f /\
  FD.init_counts (FD.init_counts f) = FD.init_counts f /\
  FD.new_from_fd (FD.new_from_fd f) = FD.new_from_fd f /\
  FD.new_from_fd FD.init = FD.init /\
  (FD.new_from_fd f = f <->
   FD.net_read f = 0 /\ FD.net_write f = 0 /\ FD.disk_read f = 0 /\
   FD.disk_write f = 0 /\ FD.unk_read f = 0 /\ FD.unk_write f = 0 /\
   FD.read f = 0 /\ FD.write f = 0 /\ FD.iorequests f = []).
Proof.
  do 4 (split; [reflexivity|]).
  destruct f; simpl. split.
  - intros H. injection H as -> -> -> -> -> -> -> -> ->. repeat split.
  - intros (-> & -> & -> & -> & -> & -> & -> & -> & ->). reflexivity.
Qed.

(** ** Interrupt records *)

(** X17: the constructors of interrupt records, for every event that
    carries the fields.  A record built from a softirq raise has its
    raise_ts, and no begin_ts; a record built from a softirq entry has its
    begin_ts, and no raise_ts; the two carry the same vector and cpu.  A
    hard interrupt record has its begin_ts and no return value.  None of
    them has an end_ts. *)
Theorem irq_creation_paths (event : Event) (vec irq cpu_id : value) :
  fields event !! "cpu_id" = Some cpu_id ->
  (fields event !! "vec" = Some vec ->
   exists r e,
     SoftIRQ.new_from_softirq_raise event = Ok r /\
     SoftIRQ.new_from_softirq_entry event = Ok e /\
     SoftIRQ.raise_ts r = Some (timestamp event) /\
     SoftIRQ.begin_ts r = None /\
     SoftIRQ.begin_ts e = Some (timestamp event) /\
     SoftIRQ.raise_ts e = None /\
     SoftIRQ.id r = vec /\ SoftIRQ.id e = vec /\
     SoftIRQ.cpu_id r = cpu_id /\ SoftIRQ.cpu_id e = cpu_id /\
     SoftIRQ.end_ts r = None /\ SoftIRQ.end_ts e = None) /\
  (fields event !! "irq" = Some irq ->
   exists h,
     HardIRQ.new_from_irq_handler_entry event = Ok h /\
     IRQ.begin_ts (HardIRQ.irq h) = Some (timestamp event) /\
     IRQ.end_ts (HardIRQ.irq h) = None /\
     IRQ.id (HardIRQ.irq h) = irq /\
     IRQ.cpu_id (HardIRQ.irq h) = cpu_id /\
     HardIRQ.ret h = VNone).
Proof.
  intros Hcpu. split.
  - intros Hvec.
    unfold SoftIRQ.new_from_softirq_raise, SoftIRQ.new_from_softirq_entry.
    rewrite (getitem_Some _ _ _ Hvec), (getitem_Some _ _ _ Hcpu). simpl.
    eexists. eexists. repeat split.
  - intros Hirq. unfold HardIRQ.new_from_irq_handler_entry.
    rewrite (getitem_Some _ _ _ Hirq), (getitem_Some _ _ _ Hcpu). simpl.
    eexists. repeat split.
Qed.

Lemma irq_creation_paths_witness :
  exists r e,
    SoftIRQ.new_from_softirq_raise (Sample.softirq_raise 100 3 (VInt 0))
      = Ok r /\
    SoftIRQ.new_from_softirq_entry (Sample.softirq_raise 100 3 (VInt 0))
      = Ok e /\
    SoftIRQ.raise_ts r = Some 100 /\ SoftIRQ.begin_ts r = None /\
    SoftIRQ.begin_ts e = Some 100 /\ SoftIRQ.raise_ts e = None.
Proof.
  destruct (irq_creation_paths (Sample.softirq_raise 100 3 (VInt 0))
              (VInt 3) VNone (VInt 0)) as [Hsoft _]; [reflexivity|].
  destruct Hsoft as (r & e & Hr & He & H1 & H2 & H3 & H4 & _);
    [reflexivity|].
  exists r, e. repeat (split; [assumption|]). assumption.
Defined.

(** ** Syscall names and operation codes *)

Ltac built_request H :=
  repeat match type of H with
         | context [getitem ?e ?k] =>
             destruct (getitem e k); simpl in H; try discriminate H
         | context [contains ?e ?k] =>
             destruct (contains e k); simpl in H; try discriminate H
         end;
  injection H as <-; simpl.

Ltac in_table :=
  unfold name_matches_operation; simpl;
  first [ apply (bool_decide_unpack _); vm_compute; exact I
        | unfold operation_table; simpl;
          unfold SyscallConsts.OPEN_SYSCALLS; rewrite ?elem_of_app; auto ].

(** X18: the name and the operation code that a constructor gives a
    request agree with the tables of [SyscallConsts].  The constructors
    that write the name themselves (splice, sendfile64, sync,
    sync_file_range, close, socket) use a name of the table of their
    operation.  The constructors that take the name from the event do so
    whenever the event is one they are meant for: a name of the read or
    write table for [new_from_fd_event], of the disk, network or
    duplication tables for the three open constructors, of the sync table
    for [new_from_fsync]. *)
Theorem constructor_names_match_tables {common : Common}
    (get_v4_addr_str : value -> result string) (event : Event)
    (tid : value) :
  (forall r, ReadWriteIORequest.new_from_splice event tid = Ok r ->
     name_matches_operation (ReadWriteIORequest.sys r)) /\
  (forall r, ReadWriteIORequest.new_from_sendfile64 event tid = Ok r ->
     name_matches_operation (ReadWriteIORequest.sys r)) /\
  name_matches_operation
    (SyncIORequest.sys (SyncIORequest.new_from_sync event tid)) /\
  (forall y, SyncIORequest.new_from_sync_file_range event tid = Ok y ->
     name_matches_operation (SyncIORequest.sys y)) /\
  (forall fd,
     name_matches_operation
       (CloseIORequest.sys (CloseIORequest.init (timestamp event) tid fd))) /\
  (forall o, OpenIORequest.new_from_socket event tid = Ok o ->
     name_matches_operation (OpenIORequest.sys o)) /\
  (forall size_key r,
     get_syscall_name event ∈ SyscallConsts.READ_SYSCALLS \/
     get_syscall_name event ∈ SyscallConsts.WRITE_SYSCALLS ->
     ReadWriteIORequest.new_from_fd_event event tid size_key = Ok r ->
     name_matches_operation (ReadWriteIORequest.sys r)) /\
  (forall o,
     get_syscall_name event ∈ SyscallConsts.DISK_OPEN_SYSCALLS ->
     OpenIORequest.new_from_disk_open event tid = Ok o ->
     name_matches_operation (OpenIORequest.sys o)) /\
  (forall o,
     get_syscall_name event ∈ SyscallConsts.NET_OPEN_SYSCALLS ->
     OpenIORequest.new_from_accept get_v4_addr_str event tid = Ok o ->
     name_matches_operation (OpenIORequest.sys o)) /\
  (forall o,
     get_syscall_name event ∈ SyscallConsts.DUP_OPEN_SYSCALLS ->
     OpenIORequest.new_from_old_fd event tid None = Ok o ->
     name_matches_operation (OpenIORequest.sys o)) /\
  (forall y,
     get_syscall_name event ∈ SyscallConsts.SYNC_SYSCALLS ->
     SyncIORequest.new_from_fsync event tid = Ok y ->
     name_matches_operation (SyncIORequest.sys y)).
Proof.
  repeat apply conj.
  - intros r H. unfold ReadWriteIORequest.new_from_splice in H.
    built_request H. in_table.
  - intros r H. unfold ReadWriteIORequest.new_from_sendfile64 in H.
    built_request H. in_table.
  - in_table.
  - intros y H. unfold SyncIORequest.new_from_sync_file_range in H.
    built_request H. in_table.
  - intros fd. in_table.
  - intros o H. unfold OpenIORequest.new_from_socket in H.
    built_request H; in_table.
  - intros size_key r Hname H.
    unfold ReadWriteIORequest.new_from_fd_event in H.
    destruct size_key as [k|]; built_request H;
      unfold name_matches_operation, operation_table; simpl;
      case_bool_decide as Hin; simpl; try assumption;
      destruct Hname as [Hr|Hw]; try assumption; try contradiction;
      destruct (read_not_write _ Hin Hw).
  - intros o Hname H. unfold OpenIORequest.new_from_disk_open, getint in H.
    destruct (getitem event "filename"); simpl in H; [|discriminate H].
    destruct (getitem event "flags") as [fl|]; simpl in H; [|discriminate H].
    destruct (as_int fl); simpl in H; [|discriminate H].
    injection H as <-. in_table.
  - intros o Hname H. unfold OpenIORequest.new_from_accept in H.
    destruct (contains event "family"); simpl in H.
    + destruct (getitem event "family") as [fam|]; simpl in H;
        [|discriminate H].
      destruct (eq_int fam AF_INET).
      * destruct (getitem event "v4addr") as [a|]; simpl in H;
          [|discriminate H].
        destruct (get_v4_addr_str a); simpl in H; [|discriminate H].
        destruct (getitem event "sport") as [p|]; simpl in H;
          [|discriminate H].
        destruct (format_d p); simpl in H; [|discriminate H].
        injection H as <-. in_table.
      * injection H as <-. in_table.
    + injection H as <-. in_table.
  - intros o Hname H. unfold OpenIORequest.new_from_old_fd in H.
    injection H as <-. in_table.
  - intros y Hname H. unfold SyncIORequest.new_from_fsync in H.
    built_request H. in_table.
Qed.
